(** * Merge-mode inference and patch-tree selection
    ([pkg/github/pullrequest_implementation.go])

    A shallow embedding of [defaultPRImplementation]: [loadRepository],
    [getMergeMode], [getCommits] and [findPatchTree].

    The Go code talks to the GitHub API through a client and mutates the
    pull request it is handed ([pr.Repository]).  Both are modelled by
    explicit state passing: a [Machine] holds the state of the outside
    world, the pull request object and the chronological list of observable
    events (API calls and log lines).  A Go function returning
    [(value, error)] returns a pair whose second component is an
    [option error] ([None] is [nil]); a run-time panic is a separate
    outcome. *)

From Stdlib Require Import String Ascii List ZArith Lia Bool DecimalString.
Import ListNotations.
Open Scope string_scope.
Open Scope Z_scope.

Set Warnings "-register-all".

(* ================================================================== *)
(** ** Errors ([github.com/pkg/errors]) *)

(** [errors.New] and [errors.Errorf] build a fresh error from a message;
    [errors.Wrap] and [errors.Wrapf] keep the cause and put a message in
    front of it. *)
Inductive error : Type :=
| errors_New (msg : string)
| errors_Wrap (cause : error) (msg : string).

(** [err.Error()]. *)
Fixpoint Error (e : error) : string :=
  match e with
  | errors_New msg => msg
  | errors_Wrap cause msg => msg ++ ": " ++ Error cause
  end.

(** [errors.Cause(err)]: the innermost error of a chain of wraps. *)
Fixpoint errors_Cause (e : error) : error :=
  match e with
  | errors_New msg => errors_New msg
  | errors_Wrap cause _ => errors_Cause cause
  end.

(** [fmt.Sprintf("%d", n)]. *)
Definition fmt_d (n : Z) : string := NilZero.string_of_int (Z.to_int n).

(** [len(s)] of a slice, as a Go [int]. *)
Definition len {A : Type} (s : list A) : Z := Z.of_nat (length s).

(* ================================================================== *)
(** ** Data model *)

(** The repository's [Commit].  The source reads [TreeSHA], [Parents] and
    the [SHA] of a parent; the elements of a slice of commit pointers are
    taken to be non-nil. *)
Inductive Commit : Type :=
  mkCommit { SHA : string; TreeSHA : string; Parents : list Commit }.

(** go-github's [Tree], [Commit] and [RepositoryCommit], with the fields
    the source reaches.  Pointer fields are options. *)
Record GhTree : Type := mkGhTree { tree_SHA : option string }.

Inductive GhCommit : Type :=
  mkGhCommit { gc_SHA : option string;
               gc_Tree : option GhTree;
               gc_Parents : list GhCommit }.

Record GhRepositoryCommit : Type :=
  mkGhRepositoryCommit { rc_Commit : option GhCommit }.

(** go-github's nil-safe getters: [GetTree] on a commit pointer and
    [GetSHA] on a tree pointer answer on a nil receiver. *)
Definition GetTree (c : option GhCommit) : option GhTree :=
  match c with
  | Some c' => gc_Tree c'
  | None => None
  end.

Definition GetSHA (t : option GhTree) : string :=
  match t with
  | Some t' => match tree_SHA t' with Some s => s | None => "" end
  | None => ""
  end.

(** [gogithub.ListOptions] and the pagination fields of
    [gogithub.Response]. *)
Record ListOptions : Type := mkListOptions { Page : Z; PerPage : Z }.

Record Response : Type := mkResponse { NextPage : Z; LastPage : Z }.

(** [&gogithub.ListOptions{}]. *)
Definition ListOptions_zero : ListOptions := mkListOptions 0 0.

(** Observable events of a run, oldest first. *)
Inductive Level : Type := InfoLevel | ErrorLevel.

Inductive Event : Type :=
| CallRepositoriesGet (owner name : string)
| CallRepositoryGetCommit (sha : string)
| CallListCommits (owner name : string) (number : Z) (opts : ListOptions)
| CallRepositoriesGetCommit (owner name sha : string)
| Log (lvl : Level) (msg : string).

(** A Go call either returns or panics. *)
Inductive outcome (A : Type) : Type :=
| Returned (a : A)
| Panicked (msg : string).
Arguments Returned {A} a.
Arguments Panicked {A} msg.

(* ================================================================== *)
(** ** The collaborators

    [githubAPIUser] is the interface the implementation embeds: the GitHub
    client ([Repositories.Get], [Repositories.GetCommit],
    [PullRequests.ListCommits]) and the constructors [NewRepository] and
    [NewCommit].  Its implementation, the [Repository] type with its
    [GetCommit] method and the three mode constants live outside this
    source file; they are the fields of this record.  Every API call takes
    the state of the world and gives the next one. *)
Record githubAPIUser : Type := {
  World : Type;
  GhRepository : Type;
  Repository : Type;
  Repositories_Get :
    World -> string -> string ->
    (option GhRepository * option error) * World;
  Repositories_GetCommit :
    World -> string -> string -> string -> ListOptions ->
    (option GhRepositoryCommit * option error) * World;
  PullRequests_ListCommits :
    World -> string -> string -> Z -> ListOptions ->
    (list GhRepositoryCommit * option Response * option error) * World;
  Repository_GetCommit :
    World -> Repository -> string ->
    (option Commit * option error) * World;
  NewRepository : option GhRepository -> option Repository;
  NewCommit : option GhCommit -> Commit;
  MERGE : string;
  SQUASH : string;
  REBASE : string
}.

Section Implementation.

Variable impl : githubAPIUser.

(** The [PullRequest] fields the source reads, and [Repository], which
    [loadRepository] writes. *)
Record PullRequest : Type := mkPullRequest {
  RepoOwner : string;
  RepoName : string;
  Number : Z;
  MergeCommitSHA : string;
  PRRepository : option (Repository impl)
}.

Record Machine : Type := mkMachine {
  world : World impl;
  pull : PullRequest;
  events : list Event
}.

(** *** The state monad of the embedding *)

Definition M (A : Type) : Type := Machine -> outcome A * Machine.

Definition ret {A : Type} (a : A) : M A := fun m => (Returned a, m).

Definition bind {A B : Type} (c : M A) (k : A -> M B) : M B :=
  fun m =>
    match c m with
    | (Returned a, m') => k a m'
    | (Panicked msg, m') => (Panicked msg, m')
    end.

Definition panic {A : Type} (msg : string) : M A :=
  fun m => (Panicked msg, m).

Definition getPR : M PullRequest := fun m => (Returned (pull m), m).

Definition emit (e : Event) : M unit :=
  fun m => (Returned tt, mkMachine (world m) (pull m) (events m ++ [e])).

Notation "x <- c ;; k" := (bind c (fun x => k))
  (at level 61, c at next level, right associativity).
Notation "' pat <- c ;; k" := (bind c (fun x => match x with pat => k end))
  (at level 61, pat pattern, c at next level, right associativity).
Notation "c ;;; k" := (bind c (fun _ => k))
  (at level 61, right associativity).

(** [logrus.Info] and [logrus.Error]. *)
Definition logrus_Info (msg : string) : M unit := emit (Log InfoLevel msg).
Definition logrus_Error (e : error) : M unit := emit (Log ErrorLevel (Error e)).

(** [pr.Repository = r]. *)
Definition setRepository (r : option (Repository impl)) : M unit :=
  fun m =>
    let pr := pull m in
    (Returned tt,
     mkMachine (world m)
       (mkPullRequest (RepoOwner pr) (RepoName pr) (Number pr)
                      (MergeCommitSHA pr) r)
       (events m)).

(** *** Calls to the collaborators: the call is recorded, the world moves on *)

Definition GitHubClient_Repositories_Get (owner name : string)
  : M (option (GhRepository impl) * option error) :=
  fun m =>
    let '(r, w) := Repositories_Get impl (world m) owner name in
    (Returned r,
     mkMachine w (pull m) (events m ++ [CallRepositoriesGet owner name])).

Definition GitHubClient_Repositories_GetCommit
  (owner name sha : string) (opts : ListOptions)
  : M (option GhRepositoryCommit * option error) :=
  fun m =>
    let '(r, w) := Repositories_GetCommit impl (world m) owner name sha opts in
    (Returned r,
     mkMachine w (pull m)
       (events m ++ [CallRepositoriesGetCommit owner name sha])).

Definition GitHubClient_PullRequests_ListCommits
  (owner name : string) (number : Z) (opts : ListOptions)
  : M (list GhRepositoryCommit * option Response * option error) :=
  fun m =>
    let '(r, w) :=
      PullRequests_ListCommits impl (world m) owner name number opts in
    (Returned r,
     mkMachine w (pull m)
       (events m ++ [CallListCommits owner name number opts])).

(** [repo.GetCommit(ctx, sha)] on a [*Repository]; the method reads its
    receiver, so a nil receiver is a nil-pointer dereference. *)
Definition Repository_GetCommit_call
  (repo : option (Repository impl)) (sha : string)
  : M (option Commit * option error) :=
  match repo with
  | None => panic "invalid memory address or nil pointer dereference"
  | Some r =>
      fun m =>
        let '(res, w) := Repository_GetCommit impl (world m) r sha in
        (Returned res,
         mkMachine w (pull m) (events m ++ [CallRepositoryGetCommit sha]))
  end.

(** [s[i]] on a slice: out of range is a run-time panic. *)
Definition index {A : Type} (s : list A) (i : Z) : M A :=
  if (i <? 0) || (len s <=? i)
  then panic ("index out of range [" ++ fmt_d i ++ "]")
  else match nth_error s (Z.to_nat i) with
       | Some a => ret a
       | None => panic ("index out of range [" ++ fmt_d i ++ "]")
       end.

(* ================================================================== *)
(** ** The implementation *)

(** [loadRepository] (lines 20-27). *)
Definition loadRepository : M unit :=
  pr <- getPR ;;
  '(ghRepo, err) <-
     GitHubClient_Repositories_Get (RepoOwner pr) (RepoName pr) ;;
  match err with
  | Some e => logrus_Error e
  | None => setRepository (NewRepository impl ghRepo)
  end.

(** Modelled from the spec: [PullRequest.GetRepository] is declared outside
    this source file.  The pull request carries "a lazily-resolved
    reference to its owning Repository": an absent reference is resolved
    through [loadRepository], then the reference is returned as it is. *)
Definition GetRepository : M (option (Repository impl)) :=
  pr <- getPR ;;
  match PRRepository pr with
  | Some r => ret (Some r)
  | None =>
      loadRepository ;;;
      pr' <- getPR ;;
      ret (PRRepository pr')
  end.

(** [getMergeMode] (lines 36-95). *)
Definition getMergeMode (commits : list Commit) : M (string * option error) :=
  repo <- GetRepository ;;
  match repo with
  | None =>
      ret ("", Some (errors_New
                       "unable to get merge mode, pull request has no repo"))
  | Some _ =>
      repo' <- GetRepository ;;
      pr <- getPR ;;
      '(mergeCommit, err) <-
         Repository_GetCommit_call repo' (MergeCommitSHA pr) ;;
      match err with
      | Some e =>
          ret ("", Some (errors_Wrap e
                           ("querying GitHub for merge commit "
                              ++ MergeCommitSHA pr)))
      | None =>
          match mergeCommit with
          | None =>
              ret ("", Some (errors_New
                               ("commit returned empty when querying sha "
                                  ++ MergeCommitSHA pr)))
          | Some mergeCommit =>
              if 1 <? len (Parents mergeCommit) then
                logrus_Info ("PR #" ++ fmt_d (Number pr)
                               ++ " merged via a merge commit") ;;;
                ret (MERGE impl, None)
              else if len commits =? 1 then
                logrus_Info ("Considering PR #" ++ fmt_d (Number pr)
                               ++ " as squash as it only has one commit") ;;;
                ret (SQUASH impl, None)
              else
                let mergeTree := TreeSHA mergeCommit in
                last <- index commits (len commits - 1) ;;
                let prTree := TreeSHA last in
                logrus_Info ("Merge tree: " ++ mergeTree
                               ++ " - PR tree: " ++ prTree) ;;;
                if (mergeTree =? prTree)%string then
                  logrus_Info ("PR #" ++ fmt_d (Number pr)
                                 ++ " was merged via rebase") ;;;
                  ret (REBASE impl, None)
                else
                  logrus_Info ("PR #" ++ fmt_d (Number pr)
                                 ++ " was merged via squash") ;;;
                  ret (SQUASH impl, None)
          end
      end
  end.

(** [getCommits] (lines 98-114): one call to [PullRequests.ListCommits]
    with the zero [ListOptions]; the [Response] is dropped. *)
Definition getCommits : M (list Commit * option error) :=
  pr <- getPR ;;
  '(commitList, _, err) <-
     GitHubClient_PullRequests_ListCommits
       (RepoOwner pr) (RepoName pr) (Number pr) ListOptions_zero ;;
  match err with
  | Some e =>
      ret ([], Some (errors_Wrap e
                       ("querying GitHub for commits in PR "
                          ++ fmt_d (Number pr))))
  | None =>
      let list :=
        map (fun ghCommit => NewCommit impl (rc_Commit ghCommit)) commitList in
      logrus_Info ("Read " ++ fmt_d (len commitList)
                     ++ " commits from PR " ++ fmt_d (Number pr)) ;;;
      ret (list, None)
  end.

(** Modelled from the spec: [PullRequest.GetCommits] is declared outside
    this source file.  It is the pull request's "ordered commit list"
    fetched from the platform, which this implementation provides as
    [getCommits]. *)
Definition GetCommits : M (list Commit * option error) := getCommits.

(** The loop of [findPatchTree] (lines 156-172) from parent number [pn]
    on.  [Some r] is a [return r] inside the loop, [None] is the loop
    running to its end. *)
Fixpoint scanParents (prSHA : string) (pn : Z) (parents : list Commit)
  : M (option (Z * option error)) :=
  match parents with
  | [] => ret None
  | parent :: rest =>
      pr <- getPR ;;
      '(parentCommit, err) <-
         GitHubClient_Repositories_GetCommit
           (RepoOwner pr) (RepoName pr) (SHA parent) ListOptions_zero ;;
      match err with
      | Some e =>
          ret (Some (0, Some (errors_Wrap e
                                ("querying GitHub for parent commit "
                                   ++ SHA parent))))
      | None =>
          match parentCommit with
          | None =>
              ret (Some (0, Some (errors_New
                                    ("commit returned empty when querying sha "
                                       ++ SHA parent))))
          | Some parentCommit =>
              let parentTreeSHA := GetSHA (GetTree (rc_Commit parentCommit)) in
              logrus_Info ("PR: " ++ prSHA ++ " - Parent: " ++ parentTreeSHA) ;;;
              if (parentTreeSHA =? prSHA)%string then
                logrus_Info ("Cherry pick to be performed diffing the parent #"
                               ++ fmt_d pn ++ " tree ") ;;;
                ret (Some (pn, None))
              else scanParents prSHA (pn + 1) rest
          end
      end
  end.

(** [findPatchTree] (lines 122-178). *)
Definition findPatchTree : M (Z * option error) :=
  '(commits, err) <- GetCommits ;;
  match err with
  | Some e => ret (0, Some (errors_Wrap e "getting pr commits"))
  | None =>
      if len commits =? 0 then
        ret (0, Some (errors_New
                        "unable to find patch tree, commit list is empty"))
      else
        pr <- getPR ;;
        '(repoCommit, err) <-
           GitHubClient_Repositories_GetCommit
             (RepoOwner pr) (RepoName pr) (MergeCommitSHA pr)
             ListOptions_zero ;;
        match err with
        | Some e =>
            ret (0, Some (errors_Wrap e
                            ("querying GitHub for merge commit "
                               ++ MergeCommitSHA pr)))
        | None =>
            match repoCommit with
            | None =>
                ret (0, Some (errors_New
                                ("commit returned empty when querying sha "
                                   ++ MergeCommitSHA pr)))
            | Some repoCommit =>
                let mergeCommit := NewCommit impl (rc_Commit repoCommit) in
                last <- index commits (len commits - 1) ;;
                let prSHA := TreeSHA last in
                found <- scanParents prSHA 0 (Parents mergeCommit) ;;
                match found with
                | Some r => ret r
                | None =>
                    ret (0, Some (errors_New
                                    ("unable to find patch tree of merge commit among "
                                       ++ fmt_d (len (Parents mergeCommit))
                                       ++ " parents")))
                end
            end
        end
  end.

End Implementation.

Arguments mkPullRequest {impl} _ _ _ _ _.
Arguments RepoOwner {impl} _.
Arguments RepoName {impl} _.
Arguments Number {impl} _.
Arguments MergeCommitSHA {impl} _.
Arguments PRRepository {impl} _.
Arguments mkMachine {impl} _ _ _.
Arguments world {impl} _.
Arguments pull {impl} _.
Arguments events {impl} _.
Arguments ret {impl A} _ _.
Arguments bind {impl A B} _ _ _.
Arguments panic {impl A} _ _.
Arguments getPR {impl} _.
Arguments emit {impl} _ _.
Arguments logrus_Info {impl} _ _.
Arguments logrus_Error {impl} _ _.
Arguments index {impl A} _ _ _.

(* ================================================================== *)
(** ** Vocabulary of the statements *)

(** The events that fetch a commit, through the repository object or
    through the client. *)
Definition isCommitFetch (e : Event) : bool :=
  match e with
  | CallRepositoryGetCommit _ => true
  | CallRepositoriesGetCommit _ _ _ => true
  | _ => false
  end.

(** Fetching every parent in turn, with no early exit: the tree hashes of
    all the parents when every fetch succeeds with a payload, [None] as
    soon as one does not. *)
Fixpoint fetchParentTrees (impl : githubAPIUser) (owner name : string)
  (parents : list Commit) (w : World impl) : option (list string) :=
  match parents with
  | [] => Some []
  | parent :: rest =>
      match Repositories_GetCommit impl w owner name (SHA parent)
              ListOptions_zero with
      | ((Some parentCommit, None), w') =>
          match fetchParentTrees impl owner name rest w' with
          | Some trees => Some (GetSHA (GetTree (rc_Commit parentCommit)) :: trees)
          | None => None
          end
      | _ => None
      end
  end.

(** The events that are calls to the platform: everything but the log
    lines. *)
Definition isCall (e : Event) : bool :=
  match e with
  | Log _ _ => false
  | _ => true
  end.

(* ================================================================== *)
(** ** A fake platform for concrete runs

    An in-memory GitHub: the repositories it knows, the commit list of the
    pull request, the commits by SHA and a budget of API calls.  A listing
    is served in pages, 30 entries when the request names no page size. *)
Module Fixture.

Record State : Type := mkState {
  quota : nat;
  repos : list (string * string);
  prCommits : list GhRepositoryCommit;
  objects : list (string * option GhRepositoryCommit)
}.

Definition spend (w : State) : State :=
  mkState (pred (quota w)) (repos w) (prCommits w) (objects w).

Definition rateLimited : error := errors_New "403 API rate limit exceeded".
Definition notFound : error := errors_New "404 Not Found".

Fixpoint lookup {A : Type} (k : string) (l : list (string * A)) : option A :=
  match l with
  | [] => None
  | (k', v) :: rest => if (k =? k')%string then Some v else lookup k rest
  end.

Definition knows (owner name : string) (l : list (string * string)) : bool :=
  existsb (fun r => (fst r =? owner)%string && (snd r =? name)%string) l.

Definition page {A : Type} (all : list A) (opts : ListOptions)
  : list A * Response :=
  let per := if PerPage opts <=? 0 then 30 else Z.min (PerPage opts) 100 in
  let pg := if Page opts <=? 0 then 1 else Page opts in
  let start := (pg - 1) * per in
  (firstn (Z.to_nat per) (skipn (Z.to_nat start) all),
   mkResponse (if start + per <? len all then pg + 1 else 0)
              ((len all + per - 1) / per)).

Definition text (s : option string) : string :=
  match s with Some s' => s' | None => "" end.

Fixpoint commitOf (c : GhCommit) : Commit :=
  match c with
  | mkGhCommit sha tree parents =>
      mkCommit (text sha) (GetSHA tree) (map commitOf parents)
  end.

Definition newCommit (c : option GhCommit) : Commit :=
  match c with
  | Some c' => commitOf c'
  | None => mkCommit "" "" []
  end.

Definition reposGet (w : State) (owner name : string)
  : (option string * option error) * State :=
  match quota w with
  | O => ((None, Some rateLimited), w)
  | S _ =>
      if knows owner name (repos w)
      then ((Some (owner ++ "/" ++ name), None), spend w)
      else ((None, Some notFound), spend w)
  end.

Definition reposGetCommit (w : State) (owner name sha : string)
  (opts : ListOptions)
  : (option GhRepositoryCommit * option error) * State :=
  match quota w with
  | O => ((None, Some rateLimited), w)
  | S _ =>
      match lookup sha (objects w) with
      | Some payload => ((payload, None), spend w)
      | None => ((None, Some notFound), spend w)
      end
  end.

Definition listCommits (w : State) (owner name : string) (number : Z)
  (opts : ListOptions)
  : (list GhRepositoryCommit * option Response * option error) * State :=
  match quota w with
  | O => (([], None, Some rateLimited), w)
  | S _ =>
      let '(items, resp) := page (prCommits w) opts in
      ((items, Some resp, None), spend w)
  end.

Definition repositoryGetCommit (w : State) (repo : string) (sha : string)
  : (option Commit * option error) * State :=
  match reposGetCommit w "" repo sha ListOptions_zero with
  | ((Some rc, None), w') => ((Some (newCommit (rc_Commit rc)), None), w')
  | ((None, None), w') => ((None, None), w')
  | ((_, Some e), w') => ((None, Some e), w')
  end.

Definition api : githubAPIUser := {|
  World := State;
  GhRepository := string;
  Repository := string;
  Repositories_Get := reposGet;
  Repositories_GetCommit := reposGetCommit;
  PullRequests_ListCommits := listCommits;
  Repository_GetCommit := repositoryGetCommit;
  NewRepository := fun r => r;
  NewCommit := newCommit;
  MERGE := "merge";
  SQUASH := "squash";
  REBASE := "rebase"
|}.

(** A commit of the platform: its SHA, its tree and its parents. *)
Definition gh (sha tree : string) (parents : list GhCommit) : GhCommit :=
  mkGhCommit (Some sha) (Some (mkGhTree (Some tree))) parents.

Definition ref (sha : string) : GhCommit := mkGhCommit (Some sha) None [].

Definition stored (sha tree : string) (parents : list string)
  : string * option GhRepositoryCommit :=
  (sha, Some (mkGhRepositoryCommit (Some (gh sha tree (map ref parents))))).

Definition pr42 : PullRequest api :=
  mkPullRequest "mattermost" "mattermod" 42 "m0" None.

Definition boot (w : State) : Machine api := @mkMachine api w pr42 [].

Definition here : list (string * string) := [("mattermost", "mattermod")].

(** Pull-request commits [c1] (tree [t0]) and [c2] (tree [t1]). *)
Definition c1 : GhRepositoryCommit := mkGhRepositoryCommit (Some (gh "c1" "t0" [])).
Definition c2 : GhRepositoryCommit := mkGhRepositoryCommit (Some (gh "c2" "t1" [])).

Definition commit1 : Commit := newCommit (rc_Commit c1).
Definition commit2 : Commit := newCommit (rc_Commit c2).

(** A parent as the merge commit lists it: a bare SHA. *)
Definition parentRef (sha : string) : Commit := mkCommit sha "" [].

(** The merge commit [m0] has the parents [A] and [B]. *)
Definition mergedByMergeCommit : State :=
  mkState 10 here [c1; c2]
    [stored "m0" "t9" ["A"; "B"]; stored "A" "tx" []; stored "B" "t1" []].

(** One parent, same tree as [c2]. *)
Definition mergedByRebase : State :=
  mkState 10 here [c1; c2] [stored "m0" "t1" ["A"]; stored "A" "tx" []].

(** One parent, a tree of its own. *)
Definition mergedBySquash : State :=
  mkState 10 here [c1; c2] [stored "m0" "t2" ["A"]; stored "A" "tx" []].

(** The pull request has the single commit [c1]. *)
Definition singleCommit : State :=
  mkState 10 here [c1] [stored "m0" "t0" ["A"]; stored "A" "tx" []].

(** The platform does not know the repository. *)
Definition noRepository : State :=
  mkState 10 [] [c1; c2] [stored "m0" "t1" ["A"]].

(** The platform lists no commit for the pull request. *)
Definition noCommits : State :=
  mkState 10 here [] [stored "m0" "t1" ["A"]; stored "A" "tx" []].

(** Parent [A] carries the tree of [c2]. *)
Definition firstParentMatches : State :=
  mkState 10 here [c1; c2]
    [stored "m0" "t9" ["A"; "B"]; stored "A" "t1" []; stored "B" "ty" []].

(** No parent carries the tree of [c2]. *)
Definition noParentMatches : State :=
  mkState 10 here [c1; c2] [stored "m0" "t9" ["A"]; stored "A" "tz" []].

(** Parent [B] is unknown to the platform, parent [C] would match. *)
Definition secondParentMissing : State :=
  mkState 10 here [c1; c2]
    [stored "m0" "t9" ["A"; "B"; "C"]; stored "A" "tx" []; stored "C" "t1" []].

(** Parent [B] comes back with an empty payload. *)
Definition secondParentEmpty : State :=
  mkState 10 here [c1; c2]
    [stored "m0" "t9" ["A"; "B"; "C"]; stored "A" "tx" []; ("B", None);
     stored "C" "t1" []].

(** The budget of API calls ends while the parents are scanned. *)
Definition budgetRunsOut : State :=
  mkState 3 here [c1; c2]
    [stored "m0" "t9" ["A"; "B"]; stored "A" "tx" []; stored "B" "t1" []].

(** The merge commit [m0] is unknown to the platform. *)
Definition mergeCommitMissing : State :=
  mkState 10 here [c1; c2] [stored "A" "tx" []].

(** No API call is left in the budget. *)
Definition budgetEmpty : State :=
  mkState 0 here [c1; c2] [stored "m0" "t1" ["A"]; stored "A" "tx" []].

(** Parent [B] carries the tree of [c2]; parent [C], after it, is unknown
    to the platform. *)
Definition matchBeforeMissing : State :=
  mkState 10 here [c1; c2]
    [stored "m0" "t9" ["A"; "B"; "C"]; stored "A" "tx" []; stored "B" "t1" []].

(** A machine whose pull request already carries its repository. *)
Definition resolved (w : State) : Machine api :=
  @mkMachine api w
    (@mkPullRequest api "mattermost" "mattermod" 42 "m0"
       (Some "mattermost/mattermod"))
    [].

(** A pull request of 31 commits, numbered from 1; commit [k] has the SHA
    and the tree [k]. *)
Definition numbered (k : nat) : GhRepositoryCommit :=
  let s := fmt_d (Z.of_nat k) in
  mkGhRepositoryCommit (Some (gh ("c" ++ s) ("t" ++ s) [])).

Definition longPR : list GhRepositoryCommit := map numbered (seq 1 31).

Definition manyCommits : State :=
  mkState 10 here longPR [stored "m0" "t31" ["A"]; stored "A" "tx" []].

End Fixture.


(* ================================================================== *)
(** ** Properties *)

Section Properties.

Variable impl : githubAPIUser.

Abbreviation Machine := (Machine impl).

(** *** Running the monad *)

Lemma bind_Returned {A B : Type} (c : M impl A) (k : A -> M impl B)
  {m m' : Machine} {a : A} :
  c m = (Returned a, m') -> bind c k m = k a m'.
Proof. intros H. unfold bind. rewrite H. reflexivity. Qed.

Lemma bind_Panicked {A B : Type} (c : M impl A) (k : A -> M impl B)
  {m m' : Machine} {msg : string} :
  c m = (Panicked msg, m') -> bind c k m = (Panicked msg, m').
Proof. intros H. unfold bind. rewrite H. reflexivity. Qed.

Lemma getPR_run (m : Machine) : getPR m = (Returned (pull m), m).
Proof. reflexivity. Qed.

Lemma logrus_Info_run (msg : string) (m : Machine) :
  logrus_Info msg m =
  (Returned tt,
   mkMachine (world m) (pull m) (events m ++ [Log InfoLevel msg])).
Proof. reflexivity. Qed.

Ltac step H := rewrite (bind_Returned _ _ H); cbv beta iota.
Ltac step_pr := rewrite (bind_Returned _ _ (getPR_run _)); cbv beta iota.
Ltac step_log :=
  rewrite (bind_Returned _ _ (logrus_Info_run _ _)); cbv beta iota.

(** *** Errors *)

(** A wrapped error keeps its cause and shows it after the new message. *)
Lemma errors_Wrap_keeps_cause (cause : error) (msg : string) :
  errors_Cause (errors_Wrap cause msg) = errors_Cause cause /\
  Error (errors_Wrap cause msg) = msg ++ ": " ++ Error cause.
Proof. split; reflexivity. Qed.

(** *** Slices *)

Lemma len_app {A : Type} (l1 l2 : list A) : len (l1 ++ l2) = len l1 + len l2.
Proof. unfold len. rewrite length_app. lia. Qed.

Lemma len_nonneg {A : Type} (l : list A) : 0 <= len l.
Proof. unfold len. lia. Qed.

Lemma index_last {A : Type} (init : list A) (x : A) (m : Machine) :
  index (init ++ [x]) (len (init ++ [x]) - 1) m = (Returned x, m).
Proof.
  unfold index. rewrite len_app.
  replace (len [x]) with 1 by reflexivity.
  replace (len init + 1 - 1) with (len init) by lia.
  pose proof (len_nonneg init) as Hn.
  destruct (len init <? 0) eqn:E1; [apply Z.ltb_lt in E1; lia|].
  destruct (len init + 1 <=? len init) eqn:E2; [apply Z.leb_le in E2; lia|].
  cbn [orb]. unfold len. rewrite Nat2Z.id.
  rewrite nth_error_app2 by lia. rewrite Nat.sub_diag. reflexivity.
Qed.

Lemma index_empty {A : Type} (m : Machine) :
  index (@nil A) (len (@nil A) - 1) m =
  (Panicked "index out of range [-1]", m).
Proof. reflexivity. Qed.

(** *** Resolving the repository *)

Lemma GetRepository_present (m : Machine) (r : Repository impl) :
  PRRepository (pull m) = Some r ->
  GetRepository impl m = (Returned (Some r), m).
Proof.
  intros H. unfold GetRepository. step_pr. rewrite H. reflexivity.
Qed.

(** [GetRepository] always returns; it leaves the identity of the pull
    request alone, stores what it returns and fetches no commit. *)
Lemma GetRepository_frame (m m1 : Machine) (o : outcome (option (Repository impl))) :
  GetRepository impl m = (o, m1) ->
  o = Returned (PRRepository (pull m1)) /\
  RepoOwner (pull m1) = RepoOwner (pull m) /\
  RepoName (pull m1) = RepoName (pull m) /\
  Number (pull m1) = Number (pull m) /\
  MergeCommitSHA (pull m1) = MergeCommitSHA (pull m) /\
  filter isCommitFetch (events m1) = filter isCommitFetch (events m).
Proof.
  unfold GetRepository, loadRepository, GitHubClient_Repositories_Get,
    logrus_Error, setRepository, emit, bind, ret, getPR.
  destruct (PRRepository (pull m)) as [r|] eqn:Hr.
  - intros H. inversion H; subst. rewrite Hr. repeat split; reflexivity.
  - destruct (Repositories_Get impl (world m) (RepoOwner (pull m))
                (RepoName (pull m))) as [[ghRepo err] w].
    destruct err as [e|]; intros H; inversion H; subst; cbn [pull events].
    + rewrite Hr. rewrite !filter_app. cbn [filter isCommitFetch].
      rewrite !app_nil_r. repeat split; reflexivity.
    + rewrite filter_app. cbn [filter isCommitFetch]. rewrite app_nil_r.
      repeat split; reflexivity.
Qed.

Lemma Repository_GetCommit_call_run (m : Machine) (r : Repository impl)
  (sha : string) (res : option Commit * option error) (w : World impl) :
  Repository_GetCommit impl (world m) r sha = (res, w) ->
  Repository_GetCommit_call impl (Some r) sha m =
  (Returned res,
   mkMachine w (pull m) (events m ++ [CallRepositoryGetCommit sha])).
Proof. intros H. unfold Repository_GetCommit_call. rewrite H. reflexivity. Qed.

(** The start of [getMergeMode] up to the fetched merge commit: the
    repository is resolved (twice, the second time from the pull request)
    and the merge commit is asked for. *)
Ltac enter_getMergeMode H1 H2 :=
  let Ho := fresh "Ho" in
  let Hsha := fresh "Hsha" in
  let Hrepo := fresh "Hrepo" in
  unfold getMergeMode;
  destruct (GetRepository_frame _ _ _ H1) as (Ho & _ & _ & _ & Hsha & _);
  injection Ho as Hrepo;
  step H1;
  rewrite (bind_Returned _ _ (GetRepository_present _ _ (eq_sym Hrepo)));
  cbv beta iota;
  step_pr;
  rewrite Hsha;
  rewrite (bind_Returned _ _ (Repository_GetCommit_call_run _ _ _ _ _ H2));
  cbv beta iota.

(** *** [getMergeMode] *)

(** C1.  With the repository resolved, the merge commit fetched and of at
    most one parent, and two or more pull request commits, [getMergeMode]
    returns REBASE when the tree of the merge commit is the tree of the
    last pull request commit and SQUASH when the two trees differ. *)
Theorem getMergeMode_compares_trees :
  forall (m m1 : Machine) (repo : Repository impl) (mergeCommit : Commit)
         (w2 : World impl) (init : list Commit) (lastCommit : Commit),
    GetRepository impl m = (Returned (Some repo), m1) ->
    Repository_GetCommit impl (world m1) repo (MergeCommitSHA (pull m)) =
      ((Some mergeCommit, None), w2) ->
    len (Parents mergeCommit) <= 1 ->
    2 <= len (init ++ [lastCommit]) ->
    (TreeSHA mergeCommit = TreeSHA lastCommit ->
     fst (getMergeMode impl (init ++ [lastCommit]) m) =
       Returned (REBASE impl, None)) /\
    (TreeSHA mergeCommit <> TreeSHA lastCommit ->
     fst (getMergeMode impl (init ++ [lastCommit]) m) =
       Returned (SQUASH impl, None)).
Proof.
  intros m m1 repo mergeCommit w2 init lastCommit H1 H2 Hparents Hlen.
  enter_getMergeMode H1 H2.
  destruct (1 <? len (Parents mergeCommit)) eqn:E1;
    [apply Z.ltb_lt in E1; lia|].
  destruct (len (init ++ [lastCommit]) =? 1) eqn:E2;
    [apply Z.eqb_eq in E2; lia|].
  rewrite (bind_Returned _ _ (index_last _ _ _)). cbv beta iota zeta.
  step_log.
  split; intros Htree.
  - apply String.eqb_eq in Htree. rewrite Htree. step_log. reflexivity.
  - apply String.eqb_neq in Htree. rewrite Htree. step_log. reflexivity.
Qed.

(** C2.  With the merge commit fetched and of two or more parents,
    [getMergeMode] returns MERGE, whatever the pull request commits and
    the trees are. *)
Theorem getMergeMode_merge_commit :
  forall (m m1 : Machine) (repo : Repository impl) (mergeCommit : Commit)
         (w2 : World impl) (commits : list Commit),
    GetRepository impl m = (Returned (Some repo), m1) ->
    Repository_GetCommit impl (world m1) repo (MergeCommitSHA (pull m)) =
      ((Some mergeCommit, None), w2) ->
    2 <= len (Parents mergeCommit) ->
    fst (getMergeMode impl commits m) = Returned (MERGE impl, None).
Proof.
  intros m m1 repo mergeCommit w2 commits H1 H2 Hparents.
  enter_getMergeMode H1 H2.
  destruct (1 <? len (Parents mergeCommit)) eqn:E1;
    [|apply Z.ltb_ge in E1; lia].
  step_log. reflexivity.
Qed.

(** The run of [getMergeMode] on an empty commit list, the merge commit
    fetched and of at most one parent: the index [len(commits)-1] is
    [-1], a run-time panic. *)
Lemma getMergeMode_no_commits :
  forall (m m1 : Machine) (repo : Repository impl) (mergeCommit : Commit)
         (w2 : World impl),
    GetRepository impl m = (Returned (Some repo), m1) ->
    Repository_GetCommit impl (world m1) repo (MergeCommitSHA (pull m)) =
      ((Some mergeCommit, None), w2) ->
    len (Parents mergeCommit) <= 1 ->
    fst (getMergeMode impl [] m) = Panicked "index out of range [-1]".
Proof.
  intros m m1 repo mergeCommit w2 H1 H2 Hparents.
  enter_getMergeMode H1 H2.
  destruct (1 <? len (Parents mergeCommit)) eqn:E1;
    [apply Z.ltb_lt in E1; lia|].
  reflexivity.
Qed.

(** C4.  With the merge commit fetched and of at most one parent and a
    single pull request commit, [getMergeMode] returns SQUASH.  The run
    ends with the line that announces the choice: the line with the two
    trees, which the code writes before it compares them, is not
    written, and the answer is the same for every tree of the merge
    commit and of the pull request commit. *)
Theorem getMergeMode_single_commit :
  forall (m m1 : Machine) (repo : Repository impl) (mergeCommit : Commit)
         (w2 : World impl) (commit : Commit),
    GetRepository impl m = (Returned (Some repo), m1) ->
    Repository_GetCommit impl (world m1) repo (MergeCommitSHA (pull m)) =
      ((Some mergeCommit, None), w2) ->
    len (Parents mergeCommit) <= 1 ->
    getMergeMode impl [commit] m =
      (Returned (SQUASH impl, None),
       mkMachine w2 (pull m1)
         (events m1 ++
            [CallRepositoryGetCommit (MergeCommitSHA (pull m));
             Log InfoLevel ("Considering PR #" ++ fmt_d (Number (pull m))
                              ++ " as squash as it only has one commit")])).
Proof.
  intros m m1 repo mergeCommit w2 commit H1 H2 Hparents.
  destruct (GetRepository_frame _ _ _ H1) as (_ & _ & _ & Hnum & _ & _).
  enter_getMergeMode H1 H2.
  destruct (1 <? len (Parents mergeCommit)) eqn:E1;
    [apply Z.ltb_lt in E1; lia|].
  cbn [len length Z.of_nat Pos.of_succ_nat Z.eqb Pos.eqb].
  step_log. unfold ret. cbn [world pull events].
  rewrite Hnum, <- app_assoc. reflexivity.
Qed.

(** C8.  When the repository is still absent after the attempt to
    resolve it, [getMergeMode] returns an error; the run stops where the
    attempt stopped, and no commit was fetched. *)
Theorem getMergeMode_no_repository :
  forall (m m1 : Machine) (commits : list Commit),
    GetRepository impl m = (Returned None, m1) ->
    getMergeMode impl commits m =
      (Returned ("", Some (errors_New
                             "unable to get merge mode, pull request has no repo")),
       m1) /\
    filter isCommitFetch (events m1) = filter isCommitFetch (events m).
Proof.
  intros m m1 commits H1.
  destruct (GetRepository_frame _ _ _ H1) as (_ & _ & _ & _ & _ & Hev).
  split; [|exact Hev].
  unfold getMergeMode. step H1. reflexivity.
Qed.

(** *** [getCommits] and the loop of [findPatchTree] *)

Lemma GitHubClient_Repositories_GetCommit_run (m : Machine)
  (owner name sha : string) (opts : ListOptions)
  (res : option GhRepositoryCommit * option error) (w : World impl) :
  Repositories_GetCommit impl (world m) owner name sha opts = (res, w) ->
  GitHubClient_Repositories_GetCommit impl owner name sha opts m =
  (Returned res,
   mkMachine w (pull m)
     (events m ++ [CallRepositoriesGetCommit owner name sha])).
Proof.
  intros H. unfold GitHubClient_Repositories_GetCommit. rewrite H.
  reflexivity.
Qed.

(** [getCommits] always returns, leaves the pull request as it is and
    fetches no single commit. *)
Lemma getCommits_frame (m m1 : Machine)
  (o : outcome (list Commit * option error)) :
  getCommits impl m = (o, m1) ->
  (exists r, o = Returned r) /\
  pull m1 = pull m /\
  filter isCommitFetch (events m1) = filter isCommitFetch (events m).
Proof.
  unfold getCommits, GitHubClient_PullRequests_ListCommits, logrus_Info,
    emit, bind, ret, getPR.
  destruct (PullRequests_ListCommits impl (world m) (RepoOwner (pull m))
              (RepoName (pull m)) (Number (pull m)) ListOptions_zero)
    as [[[commitList resp] err] w].
  destruct err as [e|]; intros H; inversion H; subst; cbn [pull events];
    rewrite ?filter_app; cbn [filter isCommitFetch]; rewrite ?app_nil_r;
    (split; [eexists; reflexivity | split; reflexivity]).
Qed.

(** The loop never touches the pull request. *)
Lemma scanParents_pull (prSHA : string) (parents : list Commit) :
  forall (pn : Z) (m m' : Machine) (o : outcome (option (Z * option error))),
    scanParents impl prSHA pn parents m = (o, m') -> pull m' = pull m.
Proof.
  induction parents as [|parent rest IH]; intros pn m m' o H.
  - inversion H; reflexivity.
  - cbn [scanParents] in H. rewrite (bind_Returned _ _ (getPR_run _)) in H.
    cbv beta iota in H.
    destruct (Repositories_GetCommit impl (world m) (RepoOwner (pull m))
                (RepoName (pull m)) (SHA parent) ListOptions_zero)
      as [[parentCommit err] w] eqn:Hfetch.
    rewrite (bind_Returned _ _
               (GitHubClient_Repositories_GetCommit_run _ _ _ _ _ _ _ Hfetch))
      in H.
    cbv beta iota in H.
    destruct err as [e|]; [inversion H; reflexivity|].
    destruct parentCommit as [pc|]; [|inversion H; reflexivity].
    cbv zeta in H.
    rewrite (bind_Returned _ _ (logrus_Info_run _ _)) in H.
    cbv beta iota in H.
    destruct (GetSHA (GetTree (rc_Commit pc)) =? prSHA)%string.
    + rewrite (bind_Returned _ _ (logrus_Info_run _ _)) in H.
      inversion H; reflexivity.
    + apply IH in H. exact H.
Qed.

(** The loop always returns. *)
Lemma scanParents_returns (prSHA : string) (parents : list Commit) :
  forall (pn : Z) (m : Machine),
    exists r m', scanParents impl prSHA pn parents m = (Returned r, m').
Proof.
  induction parents as [|parent rest IH]; intros pn m.
  - eexists; eexists; reflexivity.
  - cbn [scanParents]. step_pr.
    destruct (Repositories_GetCommit impl (world m) (RepoOwner (pull m))
                (RepoName (pull m)) (SHA parent) ListOptions_zero)
      as [[parentCommit err] w] eqn:Hfetch.
    rewrite (bind_Returned _ _
               (GitHubClient_Repositories_GetCommit_run _ _ _ _ _ _ _ Hfetch)).
    cbv beta iota.
    destruct err as [e|]; [eexists; eexists; reflexivity|].
    destruct parentCommit as [pc|]; [|eexists; eexists; reflexivity].
    cbv zeta. step_log.
    destruct (GetSHA (GetTree (rc_Commit pc)) =? prSHA)%string.
    + step_log. eexists; eexists; reflexivity.
    + apply IH.
Qed.

(** A return from inside the loop that carries an error carries the
    index 0. *)
Lemma scanParents_error_index (prSHA : string) (parents : list Commit) :
  forall (pn n : Z) (e : error) (m m' : Machine),
    scanParents impl prSHA pn parents m = (Returned (Some (n, Some e)), m') ->
    n = 0.
Proof.
  induction parents as [|parent rest IH]; intros pn n e m m' H.
  - inversion H.
  - cbn [scanParents] in H. rewrite (bind_Returned _ _ (getPR_run _)) in H.
    cbv beta iota in H.
    destruct (Repositories_GetCommit impl (world m) (RepoOwner (pull m))
                (RepoName (pull m)) (SHA parent) ListOptions_zero)
      as [[parentCommit err] w] eqn:Hfetch.
    rewrite (bind_Returned _ _
               (GitHubClient_Repositories_GetCommit_run _ _ _ _ _ _ _ Hfetch))
      in H.
    cbv beta iota in H.
    destruct err as [e'|]; [inversion H; reflexivity|].
    destruct parentCommit as [pc|]; [|inversion H; reflexivity].
    cbv zeta in H.
    rewrite (bind_Returned _ _ (logrus_Info_run _ _)) in H.
    cbv beta iota in H.
    destruct (GetSHA (GetTree (rc_Commit pc)) =? prSHA)%string.
    + rewrite (bind_Returned _ _ (logrus_Info_run _ _)) in H.
      inversion H.
    + apply IH in H. exact H.
Qed.

(** Parents that the loop passes without a return do not count: the loop
    goes on with the rest, from the machine it has reached. *)
Lemma scanParents_app (prSHA : string) (pre rest : list Commit) :
  forall (pn : Z) (m m3 : Machine),
    scanParents impl prSHA pn pre m = (Returned None, m3) ->
    scanParents impl prSHA pn (pre ++ rest) m =
    scanParents impl prSHA (pn + len pre) rest m3.
Proof.
  induction pre as [|parent pre IH]; intros pn m m3 H.
  - inversion H; subst. cbn [app len length Z.of_nat].
    rewrite Z.add_0_r. reflexivity.
  - cbn [app scanParents] in *.
    rewrite (bind_Returned _ _ (getPR_run _)) in H. cbv beta iota in H.
    step_pr.
    destruct (Repositories_GetCommit impl (world m) (RepoOwner (pull m))
                (RepoName (pull m)) (SHA parent) ListOptions_zero)
      as [[parentCommit err] w] eqn:Hfetch.
    rewrite (bind_Returned _ _
               (GitHubClient_Repositories_GetCommit_run _ _ _ _ _ _ _ Hfetch))
      in H.
    rewrite (bind_Returned _ _
               (GitHubClient_Repositories_GetCommit_run _ _ _ _ _ _ _ Hfetch)).
    cbv beta iota in H. cbv beta iota.
    destruct err as [e|]; [discriminate H|].
    destruct parentCommit as [pc|]; [|discriminate H].
    cbv zeta in H. cbv zeta.
    rewrite (bind_Returned _ _ (logrus_Info_run _ _)) in H.
    step_log. cbv beta iota in H.
    destruct (GetSHA (GetTree (rc_Commit pc)) =? prSHA)%string.
    + rewrite (bind_Returned _ _ (logrus_Info_run _ _)) in H. discriminate H.
    + rewrite (IH _ _ _ H). f_equal. unfold len. cbn [length]. lia.
Qed.

Lemma fetchParentTrees_length (owner name : string) (parents : list Commit) :
  forall (w : World impl) (trees : list string),
    fetchParentTrees impl owner name parents w = Some trees ->
    length trees = length parents.
Proof.
  induction parents as [|parent rest IH]; intros w trees H.
  - inversion H; reflexivity.
  - cbn [fetchParentTrees] in H.
    destruct (Repositories_GetCommit impl w owner name (SHA parent)
                ListOptions_zero) as [[[pc|] [e|]] w']; try discriminate.
    destruct (fetchParentTrees impl owner name rest w') as [trees'|] eqn:E;
      [|discriminate].
    inversion H; subst. cbn [length]. f_equal. eapply IH; eassumption.
Qed.

(** When every parent can be fetched, the loop returns the lowest index
    whose tree is the wanted one, and runs to its end when there is
    none. *)
Lemma scanParents_all_fetched (prSHA : string) (parents : list Commit) :
  forall (pn : Z) (m : Machine) (trees : list string),
    fetchParentTrees impl (RepoOwner (pull m)) (RepoName (pull m)) parents
      (world m) = Some trees ->
    (forall i : nat,
        nth_error trees i = Some prSHA ->
        (forall j : nat, (j < i)%nat -> nth_error trees j <> Some prSHA) ->
        fst (scanParents impl prSHA pn parents m) =
          Returned (Some (pn + Z.of_nat i, None))) /\
    (~ In prSHA trees ->
     fst (scanParents impl prSHA pn parents m) = Returned None).
Proof.
  induction parents as [|parent rest IH]; intros pn m trees H.
  - inversion H; subst. split.
    + intros [|i] Hi; discriminate.
    + reflexivity.
  - cbn [fetchParentTrees] in H. cbn [scanParents]. step_pr.
    destruct (Repositories_GetCommit impl (world m) (RepoOwner (pull m))
                (RepoName (pull m)) (SHA parent) ListOptions_zero)
      as [[parentCommit err] w] eqn:Hfetch.
    rewrite (bind_Returned _ _
               (GitHubClient_Repositories_GetCommit_run _ _ _ _ _ _ _ Hfetch)).
    cbv beta iota.
    destruct parentCommit as [pc|]; [|destruct err; discriminate].
    destruct err as [e|]; [discriminate|].
    destruct (fetchParentTrees impl (RepoOwner (pull m)) (RepoName (pull m))
                rest w) as [trees'|] eqn:Hrest; [|discriminate].
    inversion H; subst. clear H.
    cbv zeta. step_log.
    destruct (GetSHA (GetTree (rc_Commit pc)) =? prSHA)%string eqn:E.
    + apply String.eqb_eq in E. split.
      * intros [|i] Hi Hlow.
        -- step_log. cbn [fst ret]. rewrite Z.add_0_r. reflexivity.
        -- exfalso. apply (Hlow 0%nat); [lia|]. cbn. rewrite E. reflexivity.
      * intros Hnot. exfalso. apply Hnot. left. exact E.
    + apply String.eqb_neq in E.
      match goal with
      | |- context [scanParents impl prSHA (pn + 1) rest ?mm] =>
          destruct (IH (pn + 1) mm trees' Hrest) as [IHfound IHnone]
      end.
      split.
      * intros [|i] Hi Hlow.
        -- cbn in Hi. congruence.
        -- rewrite (IHfound i).
           ++ do 3 f_equal. lia.
           ++ exact Hi.
           ++ intros j Hj. apply (Hlow (S j)). lia.
      * intros Hnot. apply IHnone. intros Hin. apply Hnot. right. exact Hin.
Qed.

Lemma index_nonempty {A : Type} (s : list A) (m : Machine) :
  (len s =? 0) = false ->
  exists x, index s (len s - 1) m = (Returned x, m).
Proof.
  intros H. destruct (exists_last (l := s)) as (init & x & Hs).
  - intros ->. discriminate H.
  - subst s. exists x. apply index_last.
Qed.

(** The start of [findPatchTree] up to the loop: the commit list is
    there and not empty, the merge commit is fetched. *)
Ltac enter_findPatchTree Hc Hm :=
  let E := fresh "E" in
  unfold findPatchTree;
  step Hc;
  match goal with
  | |- context [len ?l =? 0] =>
      destruct (len l =? 0) eqn:E;
      [apply Z.eqb_eq in E; rewrite len_app in E;
       pose proof (len_nonneg (removelast l));
       match type of E with
       | len ?i + _ = 0 => pose proof (len_nonneg i)
       end;
       cbn [len length Z.of_nat Pos.of_succ_nat] in E; lia|]
  end;
  step_pr;
  rewrite (bind_Returned _ _
             (GitHubClient_Repositories_GetCommit_run _ _ _ _ _ _ _ Hm));
  cbv beta iota zeta;
  rewrite (bind_Returned _ _ (index_last _ _ _));
  cbv beta iota zeta.

(** *** [findPatchTree] *)

(** C5.  With a pull request commit list that is not empty, the merge
    commit fetched and every parent fetch succeeding, [trees] being the
    tree hashes of the parents in their order: [findPatchTree] returns
    the lowest index whose tree is the tree of the last pull request
    commit, with no error; when no parent has that tree it returns the
    error whose message gives the number of parents of the merge
    commit. *)
Theorem findPatchTree_lowest_matching_parent :
  forall (m m1 : Machine) (init : list Commit) (lastCommit : Commit)
         (repoCommit : GhRepositoryCommit) (w2 : World impl)
         (trees : list string),
    GetCommits impl m = (Returned ((init ++ [lastCommit])%list, None), m1) ->
    Repositories_GetCommit impl (world m1) (RepoOwner (pull m))
      (RepoName (pull m)) (MergeCommitSHA (pull m)) ListOptions_zero =
      ((Some repoCommit, None), w2) ->
    fetchParentTrees impl (RepoOwner (pull m)) (RepoName (pull m))
      (Parents (NewCommit impl (rc_Commit repoCommit))) w2 = Some trees ->
    length trees = length (Parents (NewCommit impl (rc_Commit repoCommit))) /\
    (forall i : nat,
        nth_error trees i = Some (TreeSHA lastCommit) ->
        (forall j : nat,
            (j < i)%nat -> nth_error trees j <> Some (TreeSHA lastCommit)) ->
        fst (findPatchTree impl m) = Returned (Z.of_nat i, None)) /\
    (~ In (TreeSHA lastCommit) trees ->
     fst (findPatchTree impl m) =
       Returned
         (0, Some (errors_New
                     ("unable to find patch tree of merge commit among "
                        ++ fmt_d (len (Parents
                                         (NewCommit impl (rc_Commit repoCommit))))
                        ++ " parents")))).
Proof.
  intros m m1 init lastCommit repoCommit w2 trees Hc Hm Hall.
  split; [eapply fetchParentTrees_length; eassumption|].
  assert (Hpull1 : pull m1 = pull m)
    by (destruct (getCommits_frame _ _ _ Hc) as (_ & Hp & _); exact Hp).
  rewrite <- Hpull1 in Hm, Hall.
  enter_findPatchTree Hc Hm.
  match goal with
  | |- context [scanParents impl ?sha 0 ?ps] =>
      match goal with
      | |- context [bind _ _ ?m2] =>
          destruct (scanParents_returns sha ps 0 m2) as (r & m3 & Hscan);
          destruct (scanParents_all_fetched sha ps 0 m2 trees Hall)
            as [Hfound Hnone]
      end
  end.
  rewrite (bind_Returned _ _ Hscan). rewrite Hscan in Hfound, Hnone.
  cbn [fst] in Hfound, Hnone.
  split.
  - intros i Hi Hlow. specialize (Hfound i Hi Hlow).
    injection Hfound as ->. reflexivity.
  - intros Hnot. specialize (Hnone Hnot). injection Hnone as ->. reflexivity.
Qed.

(** C6.  When the commit list of the pull request comes back empty,
    [findPatchTree] returns the error of the empty list; the run stops
    where the listing stopped, before any commit is fetched. *)
Theorem findPatchTree_empty_commit_list :
  forall (m m1 : Machine),
    GetCommits impl m = (Returned ([], None), m1) ->
    findPatchTree impl m =
      (Returned (0, Some (errors_New
                            "unable to find patch tree, commit list is empty")),
       m1) /\
    filter isCommitFetch (events m1) = filter isCommitFetch (events m).
Proof.
  intros m m1 Hc.
  destruct (getCommits_frame _ _ _ Hc) as (_ & _ & Hev).
  split; [|exact Hev].
  unfold findPatchTree. step Hc. reflexivity.
Qed.

(** C7.  The scan has passed the parents [pre] (each fetched, none with
    the wanted tree) and the fetch of the next parent errors or comes
    back empty: [findPatchTree] returns index 0 with the error that
    wraps the cause (or names the SHA, for the empty payload), and the
    failed fetch is the last event of the run: no parent of [post] is
    fetched. *)
Theorem findPatchTree_parent_fetch_fails :
  forall (m m1 m3 : Machine) (init : list Commit) (lastCommit : Commit)
         (repoCommit : GhRepositoryCommit) (w2 w4 : World impl)
         (pre post : list Commit) (parent : Commit)
         (resp : option GhRepositoryCommit * option error),
    GetCommits impl m = (Returned ((init ++ [lastCommit])%list, None), m1) ->
    Repositories_GetCommit impl (world m1) (RepoOwner (pull m))
      (RepoName (pull m)) (MergeCommitSHA (pull m)) ListOptions_zero =
      ((Some repoCommit, None), w2) ->
    Parents (NewCommit impl (rc_Commit repoCommit)) = (pre ++ parent :: post)%list ->
    scanParents impl (TreeSHA lastCommit) 0 pre
      (mkMachine w2 (pull m)
         (events m1 ++
            [CallRepositoriesGetCommit (RepoOwner (pull m)) (RepoName (pull m))
               (MergeCommitSHA (pull m))])) = (Returned None, m3) ->
    Repositories_GetCommit impl (world m3) (RepoOwner (pull m))
      (RepoName (pull m)) (SHA parent) ListOptions_zero = (resp, w4) ->
    snd resp <> None \/ fst resp = None ->
    exists err : error,
      findPatchTree impl m =
        (Returned (0, Some err),
         mkMachine w4 (pull m)
           (events m3 ++
              [CallRepositoriesGetCommit (RepoOwner (pull m))
                 (RepoName (pull m)) (SHA parent)])) /\
      (forall cause : error,
          snd resp = Some cause ->
          err = errors_Wrap cause
                  ("querying GitHub for parent commit " ++ SHA parent)) /\
      (snd resp = None ->
       err = errors_New
               ("commit returned empty when querying sha " ++ SHA parent)).
Proof.
  intros m m1 m3 init lastCommit repoCommit w2 w4 pre post parent resp
         Hc Hm Hparents Hpre Hfetch Hfail.
  assert (Hpull1 : pull m1 = pull m)
    by (destruct (getCommits_frame _ _ _ Hc) as (_ & Hp & _); exact Hp).
  pose proof (scanParents_pull _ _ _ _ _ _ Hpre) as Hpull3.
  cbn [pull] in Hpull3.
  rewrite <- Hpull1 in Hm.
  enter_findPatchTree Hc Hm.
  rewrite Hparents, Hpull1.
  unfold bind at 1.
  rewrite (scanParents_app _ _ _ _ _ _ Hpre).
  cbn [scanParents]. step_pr. rewrite Hpull3.
  rewrite (bind_Returned _ _
             (GitHubClient_Repositories_GetCommit_run _ _ _ _ _ _ _ Hfetch)).
  cbv beta iota. rewrite Hpull3.
  destruct resp as [parentCommit err].
  destruct err as [e|].
  - eexists. split; [reflexivity|]. cbn [snd]. split.
    + intros cause Hcause. injection Hcause as <-. reflexivity.
    + intros Hnone. discriminate Hnone.
  - destruct parentCommit as [pc|].
    + exfalso. destruct Hfail as [Hf|Hf]; cbn in Hf; congruence.
    + eexists. split; [reflexivity|]. cbn [snd]. split.
      * intros cause Hcause. discriminate Hcause.
      * reflexivity.
Qed.


(** Whenever [findPatchTree] returns an error, the index next to it is
    0. *)
Lemma findPatchTree_error_index :
  forall (m m' : Machine) (n : Z) (e : error),
    findPatchTree impl m = (Returned (n, Some e), m') -> n = 0.
Proof.
  intros m m' n e. unfold findPatchTree, GetCommits.
  destruct (getCommits impl m) as [o m1] eqn:Hc.
  destruct (getCommits_frame _ _ _ Hc) as ((r & ->) & _ & _).
  step Hc. destruct r as [commits err].
  destruct err as [e0|]; [intros H; inversion H; reflexivity|].
  destruct (len commits =? 0) eqn:E; [intros H; inversion H; reflexivity|].
  step_pr.
  destruct (Repositories_GetCommit impl (world m1) (RepoOwner (pull m1))
              (RepoName (pull m1)) (MergeCommitSHA (pull m1)) ListOptions_zero)
    as [[repoCommit err] w2] eqn:Hm.
  rewrite (bind_Returned _ _
             (GitHubClient_Repositories_GetCommit_run _ _ _ _ _ _ _ Hm)).
  cbv beta iota.
  destruct err as [e0|]; [intros H; inversion H; reflexivity|].
  destruct repoCommit as [rc|]; [|intros H; inversion H; reflexivity].
  cbv zeta.
  match goal with
  | |- context [bind (index commits _) _ ?m2] =>
      destruct (index_nonempty commits m2 E) as (x & Hx)
  end.
  rewrite (bind_Returned _ _ Hx). cbv beta iota.
  match goal with
  | |- context [bind (scanParents impl ?sha 0 ?ps) _ ?m2] =>
      destruct (scanParents_returns sha ps 0 m2) as (r & m3 & Hscan)
  end.
  rewrite (bind_Returned _ _ Hscan).
  destruct r as [[n' [e'|]]|]; intros H; inversion H; subst.
  - eapply scanParents_error_index. exact Hscan.
  - reflexivity.
Qed.

(** *** [getCommits] *)

(** [getCommits] is one listing call with the zero options: the commits
    it returns are the entries of that one answer, whatever the answer
    says about further pages. *)
Lemma getCommits_single_call :
  forall (m : Machine) (commitList : list GhRepositoryCommit)
         (resp : option Response) (w : World impl),
    PullRequests_ListCommits impl (world m) (RepoOwner (pull m))
      (RepoName (pull m)) (Number (pull m)) ListOptions_zero =
      ((commitList, resp, None), w) ->
    getCommits impl m =
      (Returned (map (fun c => NewCommit impl (rc_Commit c)) commitList, None),
       mkMachine w (pull m)
         (events m ++
            [CallListCommits (RepoOwner (pull m)) (RepoName (pull m))
               (Number (pull m)) ListOptions_zero;
             Log InfoLevel ("Read " ++ fmt_d (len commitList)
                              ++ " commits from PR "
                              ++ fmt_d (Number (pull m)))])).
Proof.
  intros m commitList resp w H.
  unfold getCommits, GitHubClient_PullRequests_ListCommits, logrus_Info,
    emit, bind, ret, getPR.
  rewrite H. cbn [world pull events]. rewrite <- app_assoc. reflexivity.
Qed.

(* ================================================================== *)
(** *** More on [getMergeMode] *)

Lemma bind_ext {A B : Type} (c : M impl A) (k k' : A -> M impl B)
  (m : Machine) :
  (forall (a : A) (m' : Machine), k a m' = k' a m') ->
  bind c k m = bind c k' m.
Proof.
  intros H. unfold bind. destruct (c m) as [[a|msg] m']; [apply H|reflexivity].
Qed.

(** Indexing a slice reads it: the machine stays as it is. *)
Lemma index_machine {A : Type} (s : list A) (i : Z) (m m' : Machine)
  (o : outcome A) :
  index s i m = (o, m') -> m' = m.
Proof.
  unfold index, panic, ret.
  destruct ((i <? 0) || (len s <=? i)); [intros H; inversion H; reflexivity|].
  destruct (nth_error s (Z.to_nat i)); intros H; inversion H; reflexivity.
Qed.

Lemma GetRepository_outcome (m : Machine) :
  exists m1 : Machine,
    GetRepository impl m = (Returned (PRRepository (pull m1)), m1) /\
    RepoOwner (pull m1) = RepoOwner (pull m) /\
    RepoName (pull m1) = RepoName (pull m) /\
    Number (pull m1) = Number (pull m) /\
    MergeCommitSHA (pull m1) = MergeCommitSHA (pull m) /\
    filter isCommitFetch (events m1) = filter isCommitFetch (events m).
Proof.
  destruct (GetRepository impl m) as [o m1] eqn:H.
  destruct (GetRepository_frame _ _ _ H) as (-> & H1 & H2 & H3 & H4 & H5).
  exists m1. repeat split; assumption.
Qed.

(** Every path of [getMergeMode] up to the look at the commit list. *)
Ltac paths_getMergeMode m commits :=
  let m1 := fresh "m1" in
  let H1 := fresh "H1" in
  let Hr := fresh "Hr" in
  let H2 := fresh "H2" in
  destruct (GetRepository_outcome m) as (m1 & H1 & _ & _ & _ & _ & Hev);
  destruct (PRRepository (pull m1)) as [repo|] eqn:Hr;
  [ destruct (Repository_GetCommit impl (world m1) repo
                (MergeCommitSHA (pull m))) as [[mc err] w2] eqn:H2;
    enter_getMergeMode H1 H2;
    destruct err as [e|];
    [ | destruct mc as [mergeCommit|];
        [ destruct (1 <? len (Parents mergeCommit)) eqn:E1;
          [ step_log
          | destruct (len commits =? 1) eqn:E2; [ step_log | ] ]
        | ] ]
  | unfold getMergeMode; step H1 ].

Lemma len_zero_false {A : Type} (s : list A) :
  s <> [] -> (len s =? 0) = false.
Proof.
  intros H. destruct s as [|a s]; [contradiction|].
  apply Z.eqb_neq. unfold len. cbn [length]. lia.
Qed.


(** X2.  What [getMergeMode] returns: next to an error the mode is the
    empty string; with no error it is one of the three mode constants. *)
Theorem getMergeMode_result_shape :
  forall (m m' : Machine) (commits : list Commit) (mode : string)
         (failure : option error),
    getMergeMode impl commits m = (Returned (mode, failure), m') ->
    match failure with
    | Some _ => mode = ""
    | None => mode = MERGE impl \/ mode = SQUASH impl \/ mode = REBASE impl
    end.
Proof.
  intros m m' commits mode failure.
  paths_getMergeMode m commits;
    try (intros H; inversion H; subst; auto; fail).
  match goal with
  | |- context [bind (index commits ?i) _ ?m2] =>
      destruct (index commits i m2) as [[x|msg] mx] eqn:Hx
  end.
  - step Hx. cbv zeta. step_log.
    destruct (TreeSHA mergeCommit =? TreeSHA x)%string; step_log;
      intros H; inversion H; subst; auto.
  - rewrite (bind_Panicked _ _ Hx). intros H. discriminate H.
Qed.

(** X3.  The repository is resolved and the fetch of the merge commit
    errors or comes back empty: [getMergeMode] returns the empty mode
    with the error that wraps the cause (or names the SHA), for every
    commit list, the empty one too; the fetch is the last event. *)
Theorem getMergeMode_merge_fetch_fails :
  forall (m m1 : Machine) (repo : Repository impl)
         (resp : option Commit * option error) (w2 : World impl)
         (commits : list Commit),
    GetRepository impl m = (Returned (Some repo), m1) ->
    Repository_GetCommit impl (world m1) repo (MergeCommitSHA (pull m)) =
      (resp, w2) ->
    snd resp <> None \/ fst resp = None ->
    exists err : error,
      getMergeMode impl commits m =
        (Returned ("", Some err),
         mkMachine w2 (pull m1)
           (events m1 ++ [CallRepositoryGetCommit (MergeCommitSHA (pull m))]))
      /\
      (forall cause : error,
          snd resp = Some cause ->
          err = errors_Wrap cause
                  ("querying GitHub for merge commit "
                     ++ MergeCommitSHA (pull m))) /\
      (snd resp = None ->
       err = errors_New
               ("commit returned empty when querying sha "
                  ++ MergeCommitSHA (pull m))).
Proof.
  intros m m1 repo resp w2 commits H1 H2 Hfail.
  enter_getMergeMode H1 H2.
  destruct resp as [mc err]. destruct err as [e|].
  - eexists. split; [reflexivity|]. cbn [snd]. split.
    + intros cause Hc. injection Hc as <-. reflexivity.
    + intros Hn. discriminate Hn.
  - destruct mc as [mergeCommit|].
    + exfalso. destruct Hfail as [Hf|Hf]; cbn in Hf; congruence.
    + eexists. split; [reflexivity|]. cbn [snd]. split.
      * intros cause Hc. discriminate Hc.
      * reflexivity.
Qed.

(** X4.  Of a commit list of two or more commits [getMergeMode] reads the
    tree of the last commit and nothing else: two such lists whose last
    commits have the same tree give the same run (result, world, pull
    request and events), whatever the other commits are. *)
Theorem getMergeMode_reads_last_tree_only :
  forall (m : Machine) (init1 init2 : list Commit) (last1 last2 : Commit),
    init1 <> [] ->
    init2 <> [] ->
    TreeSHA last1 = TreeSHA last2 ->
    getMergeMode impl (init1 ++ [last1]) m =
    getMergeMode impl (init2 ++ [last2]) m.
Proof.
  intros m init1 init2 last1 last2 Hne1 Hne2 Htree.
  assert (Hlen : forall (init : list Commit) (x : Commit),
             init <> [] -> (len (init ++ [x]) =? 1) = false).
  { intros init x Hne. apply Z.eqb_neq. rewrite len_app.
    pose proof (len_zero_false _ Hne) as Hz. apply Z.eqb_neq in Hz.
    pose proof (len_nonneg init). cbn [len length Z.of_nat Pos.of_succ_nat] in *.
    unfold len in *. cbn [length] in *. lia. }
  unfold getMergeMode.
  apply bind_ext. intros repo ma. destruct repo as [r|]; [|reflexivity].
  apply bind_ext. intros repo' mb.
  apply bind_ext. intros pr mc.
  apply bind_ext. intros [mergeCommit err] md.
  destruct err as [e|]; [reflexivity|].
  destruct mergeCommit as [mergeCommit|]; [|reflexivity].
  destruct (1 <? len (Parents mergeCommit)); [reflexivity|].
  rewrite (Hlen init1 last1 Hne1), (Hlen init2 last2 Hne2).
  rewrite (bind_Returned _ _ (index_last init1 last1 md)).
  rewrite (bind_Returned _ _ (index_last init2 last2 md)).
  cbv beta iota zeta. rewrite Htree. reflexivity.
Qed.

(** X5.  [getMergeMode] fetches at most one commit, the merge commit,
    through the repository object: it never fetches a commit of the pull
    request or a parent. *)
Theorem getMergeMode_fetches_only_merge_commit :
  forall (m : Machine) (commits : list Commit),
    filter isCommitFetch (events (snd (getMergeMode impl commits m))) =
      filter isCommitFetch (events m) \/
    filter isCommitFetch (events (snd (getMergeMode impl commits m))) =
      (filter isCommitFetch (events m)
         ++ [CallRepositoryGetCommit (MergeCommitSHA (pull m))])%list.
Proof.
  intros m commits.
  paths_getMergeMode m commits;
    try (left; cbn [snd events]; exact Hev);
    try (right; unfold ret; cbn [snd events];
         rewrite ?filter_app; cbn [filter isCommitFetch];
         rewrite ?app_nil_r, Hev; reflexivity).
  right.
  match goal with
  | |- context [bind (index commits ?i) _ ?m2] =>
      destruct (index commits i m2) as [[x|msg] mx] eqn:Hx;
      pose proof (index_machine _ _ _ _ _ Hx) as Hmx; subst mx
  end.
  - step Hx. cbv zeta. step_log.
    destruct (TreeSHA mergeCommit =? TreeSHA x)%string; step_log;
      unfold ret; cbn [snd events];
      rewrite ?filter_app; cbn [filter isCommitFetch];
      rewrite ?app_nil_r, Hev; reflexivity.
  - rewrite (bind_Panicked _ _ Hx). cbn [snd events].
    rewrite ?filter_app; cbn [filter isCommitFetch]. rewrite Hev. reflexivity.
Qed.

(** X6.  When the pull request already carries its repository, every
    path of [getMergeMode], the panic too, makes one API call, the fetch
    of the merge commit, and leaves the pull request as it is. *)
Theorem getMergeMode_one_call_when_resolved :
  forall (m : Machine) (repo : Repository impl) (commits : list Commit),
    PRRepository (pull m) = Some repo ->
    filter isCall (events (snd (getMergeMode impl commits m))) =
      (filter isCall (events m)
         ++ [CallRepositoryGetCommit (MergeCommitSHA (pull m))])%list /\
    world (snd (getMergeMode impl commits m)) =
      snd (Repository_GetCommit impl (world m) repo (MergeCommitSHA (pull m)))
    /\
    pull (snd (getMergeMode impl commits m)) = pull m.
Proof.
  intros m repo commits Hrepo.
  pose proof (GetRepository_present m repo Hrepo) as H1.
  destruct (Repository_GetCommit impl (world m) repo
              (MergeCommitSHA (pull m))) as [[mc err] w2] eqn:H2.
  unfold getMergeMode. step H1. step H1. step_pr.
  rewrite (bind_Returned _ _ (Repository_GetCommit_call_run _ _ _ _ _ H2)).
  cbv beta iota. cbn [snd].
  assert (Hfin : forall msg : string,
             filter isCall ((events m ++ [CallRepositoryGetCommit
                                            (MergeCommitSHA (pull m))])
                              ++ [Log InfoLevel msg]) =
             (filter isCall (events m)
                ++ [CallRepositoryGetCommit (MergeCommitSHA (pull m))])%list).
  { intros msg. rewrite !filter_app. cbn [filter isCall].
    rewrite app_nil_r. reflexivity. }
  assert (Hone :
             filter isCall (events m ++ [CallRepositoryGetCommit
                                           (MergeCommitSHA (pull m))]) =
             (filter isCall (events m)
                ++ [CallRepositoryGetCommit (MergeCommitSHA (pull m))])%list).
  { rewrite filter_app. reflexivity. }
  destruct err as [e|]; [cbn; auto|].
  destruct mc as [mergeCommit|]; [|cbn; auto].
  destruct (1 <? len (Parents mergeCommit)).
  { step_log. unfold ret. cbn [snd events world pull]. auto. }
  destruct (len commits =? 1).
  { step_log. unfold ret. cbn [snd events world pull]. auto. }
  match goal with
  | |- context [bind (index commits ?i) _ ?m2] =>
      destruct (index commits i m2) as [[x|msg] mx] eqn:Hx;
      pose proof (index_machine _ _ _ _ _ Hx) as Hmx; subst mx
  end.
  - step Hx. cbv zeta. step_log.
    destruct (TreeSHA mergeCommit =? TreeSHA x)%string; step_log;
      unfold ret; cbn [snd events world pull];
      rewrite !filter_app; cbn [filter isCall]; rewrite !app_nil_r; auto.
  - rewrite (bind_Panicked _ _ Hx). cbn [snd events world pull]. auto.
Qed.

(** X7.  The pull request has no repository yet and the platform refuses
    it with an error: [loadRepository] logs the error and returns, and
    [getMergeMode] answers with its own error, which does not carry the
    platform's. *)
Theorem getMergeMode_resolution_error_is_logged :
  forall (m : Machine) (commits : list Commit)
         (ghRepo : option (GhRepository impl)) (e : error) (w : World impl),
    PRRepository (pull m) = None ->
    Repositories_Get impl (world m) (RepoOwner (pull m)) (RepoName (pull m)) =
      ((ghRepo, Some e), w) ->
    getMergeMode impl commits m =
      (Returned ("", Some (errors_New
                             "unable to get merge mode, pull request has no repo")),
       mkMachine w (pull m)
         (events m ++
            [CallRepositoriesGet (RepoOwner (pull m)) (RepoName (pull m));
             Log ErrorLevel (Error e)])).
Proof.
  intros m commits ghRepo e w Hnone Hget.
  assert (H1 : GetRepository impl m =
               (Returned None,
                mkMachine w (pull m)
                  (events m ++
                     [CallRepositoriesGet (RepoOwner (pull m))
                        (RepoName (pull m));
                      Log ErrorLevel (Error e)]))).
  { unfold GetRepository, loadRepository, GitHubClient_Repositories_Get,
      logrus_Error, emit, bind, ret, getPR.
    rewrite Hnone, Hget. cbn [pull world events]. rewrite Hnone.
    rewrite <- app_assoc. reflexivity. }
  unfold getMergeMode. step H1. reflexivity.
Qed.

(* ================================================================== *)
(** *** More on [getCommits] and [findPatchTree] *)


(** X9.  The listing of the pull request commits errors: [findPatchTree]
    returns index 0 and the cause wrapped twice, once by [getCommits] and
    once by itself; the message reads outside in and the cause stays the
    platform's.  No commit is fetched. *)
Theorem findPatchTree_listing_error :
  forall (m : Machine) (commitList : list GhRepositoryCommit)
         (resp : option Response) (cause : error) (w : World impl),
    PullRequests_ListCommits impl (world m) (RepoOwner (pull m))
      (RepoName (pull m)) (Number (pull m)) ListOptions_zero =
      ((commitList, resp, Some cause), w) ->
    exists err : error,
      findPatchTree impl m =
        (Returned (0, Some err),
         mkMachine w (pull m)
           (events m ++
              [CallListCommits (RepoOwner (pull m)) (RepoName (pull m))
                 (Number (pull m)) ListOptions_zero])) /\
      Error err =
        "getting pr commits: querying GitHub for commits in PR "
          ++ fmt_d (Number (pull m)) ++ ": " ++ Error cause /\
      errors_Cause err = errors_Cause cause.
Proof.
  intros m commitList resp cause w H.
  eexists. split; [|split].
  - unfold findPatchTree, GetCommits, getCommits,
      GitHubClient_PullRequests_ListCommits, bind, ret, getPR.
    rewrite H. reflexivity.
  - reflexivity.
  - reflexivity.
Qed.

(** X10.  The commit list is there and the fetch of the merge commit
    errors or comes back empty: [findPatchTree] returns index 0 with the
    error that wraps the cause (or names the SHA); that fetch is the last
    event, no parent is looked at. *)
Theorem findPatchTree_merge_fetch_fails :
  forall (m m1 : Machine) (init : list Commit) (lastCommit : Commit)
         (resp : option GhRepositoryCommit * option error) (w2 : World impl),
    GetCommits impl m = (Returned ((init ++ [lastCommit])%list, None), m1) ->
    Repositories_GetCommit impl (world m1) (RepoOwner (pull m))
      (RepoName (pull m)) (MergeCommitSHA (pull m)) ListOptions_zero =
      (resp, w2) ->
    snd resp <> None \/ fst resp = None ->
    exists err : error,
      findPatchTree impl m =
        (Returned (0, Some err),
         mkMachine w2 (pull m)
           (events m1 ++
              [CallRepositoriesGetCommit (RepoOwner (pull m))
                 (RepoName (pull m)) (MergeCommitSHA (pull m))])) /\
      (forall cause : error,
          snd resp = Some cause ->
          err = errors_Wrap cause
                  ("querying GitHub for merge commit "
                     ++ MergeCommitSHA (pull m))) /\
      (snd resp = None ->
       err = errors_New
               ("commit returned empty when querying sha "
                  ++ MergeCommitSHA (pull m))).
Proof.
  intros m m1 init lastCommit resp w2 Hc Hm Hfail.
  assert (Hpull1 : pull m1 = pull m)
    by (destruct (getCommits_frame _ _ _ Hc) as (_ & Hp & _); exact Hp).
  rewrite <- Hpull1 in Hm.
  unfold findPatchTree. step Hc.
  destruct (len (init ++ [lastCommit]) =? 0) eqn:E.
  { apply Z.eqb_eq in E. rewrite len_app in E.
    pose proof (len_nonneg init).
    cbn [len length Z.of_nat Pos.of_succ_nat] in E. lia. }
  step_pr.
  rewrite (bind_Returned _ _
             (GitHubClient_Repositories_GetCommit_run _ _ _ _ _ _ _ Hm)).
  cbv beta iota. rewrite Hpull1.
  destruct resp as [repoCommit err]. destruct err as [e|].
  - eexists. split; [reflexivity|]. cbn [snd]. split.
    + intros cause Hcause. injection Hcause as <-. reflexivity.
    + intros Hn. discriminate Hn.
  - destruct repoCommit as [rc|].
    + exfalso. destruct Hfail as [Hf|Hf]; cbn in Hf; congruence.
    + eexists. split; [reflexivity|]. cbn [snd]. split.
      * intros cause Hcause. discriminate Hcause.
      * reflexivity.
Qed.

(** X11.  The scan has passed the parents [pre] and the next parent is
    fetched with the wanted tree: [findPatchTree] returns its index,
    [len(pre)], at once.  The parents [post] play no part: they are not
    fetched, and whether they could be fetched does not matter. *)
Theorem findPatchTree_stops_at_first_match :
  forall (m m1 m3 : Machine) (init : list Commit) (lastCommit : Commit)
         (repoCommit parentCommit : GhRepositoryCommit) (w2 w4 : World impl)
         (pre post : list Commit) (parent : Commit),
    GetCommits impl m = (Returned ((init ++ [lastCommit])%list, None), m1) ->
    Repositories_GetCommit impl (world m1) (RepoOwner (pull m))
      (RepoName (pull m)) (MergeCommitSHA (pull m)) ListOptions_zero =
      ((Some repoCommit, None), w2) ->
    Parents (NewCommit impl (rc_Commit repoCommit)) =
      (pre ++ parent :: post)%list ->
    scanParents impl (TreeSHA lastCommit) 0 pre
      (mkMachine w2 (pull m)
         (events m1 ++
            [CallRepositoriesGetCommit (RepoOwner (pull m)) (RepoName (pull m))
               (MergeCommitSHA (pull m))])) = (Returned None, m3) ->
    Repositories_GetCommit impl (world m3) (RepoOwner (pull m))
      (RepoName (pull m)) (SHA parent) ListOptions_zero =
      ((Some parentCommit, None), w4) ->
    GetSHA (GetTree (rc_Commit parentCommit)) = TreeSHA lastCommit ->
    findPatchTree impl m =
      (Returned (len pre, None),
       mkMachine w4 (pull m)
         (events m3 ++
            [CallRepositoriesGetCommit (RepoOwner (pull m)) (RepoName (pull m))
               (SHA parent);
             Log InfoLevel ("PR: " ++ TreeSHA lastCommit ++ " - Parent: "
                              ++ TreeSHA lastCommit);
             Log InfoLevel ("Cherry pick to be performed diffing the parent #"
                              ++ fmt_d (len pre) ++ " tree ")])).
Proof.
  intros m m1 m3 init lastCommit repoCommit parentCommit w2 w4 pre post parent
         Hc Hm Hparents Hpre Hfetch Htree.
  assert (Hpull1 : pull m1 = pull m)
    by (destruct (getCommits_frame _ _ _ Hc) as (_ & Hp & _); exact Hp).
  pose proof (scanParents_pull _ _ _ _ _ _ Hpre) as Hpull3.
  cbn [pull] in Hpull3.
  rewrite <- Hpull1 in Hm.
  enter_findPatchTree Hc Hm.
  rewrite Hparents, Hpull1.
  unfold bind at 1.
  rewrite (scanParents_app _ _ _ _ _ _ Hpre).
  cbn [scanParents]. step_pr. rewrite Hpull3.
  rewrite (bind_Returned _ _
             (GitHubClient_Repositories_GetCommit_run _ _ _ _ _ _ _ Hfetch)).
  cbv beta iota zeta. step_log.
  rewrite Htree, String.eqb_refl. step_log.
  unfold ret. cbn [world pull events]. rewrite Hpull3.
  rewrite <- !app_assoc. reflexivity.
Qed.

(** The commits the loop fetches are the first [k] parents, in their
    order; [k] is one more than the index of a match and all of them when
    the loop runs to its end. *)
Lemma scanParents_fetches (prSHA : string) (parents : list Commit) :
  forall (pn : Z) (m m' : Machine) (r : option (Z * option error)),
    scanParents impl prSHA pn parents m = (Returned r, m') ->
    exists k : nat,
      (k <= length parents)%nat /\
      filter isCommitFetch (events m') =
        (filter isCommitFetch (events m)
           ++ map (fun p => CallRepositoriesGetCommit (RepoOwner (pull m))
                              (RepoName (pull m)) (SHA p))
                (firstn k parents))%list /\
      match r with
      | Some (n, None) => n = pn + Z.of_nat k - 1 /\ (0 < k)%nat
      | Some (_, Some _) => (0 < k)%nat
      | None => k = length parents
      end.
Proof.
  induction parents as [|parent rest IH]; intros pn m m' r H.
  - inversion H; subst. exists 0%nat. cbn [firstn map length].
    rewrite app_nil_r. repeat split. lia.
  - cbn [scanParents] in H. rewrite (bind_Returned _ _ (getPR_run _)) in H.
    cbv beta iota in H.
    destruct (Repositories_GetCommit impl (world m) (RepoOwner (pull m))
                (RepoName (pull m)) (SHA parent) ListOptions_zero)
      as [[parentCommit err] w] eqn:Hfetch.
    rewrite (bind_Returned _ _
               (GitHubClient_Repositories_GetCommit_run _ _ _ _ _ _ _ Hfetch))
      in H.
    cbv beta iota in H.
    destruct err as [e|].
    { inversion H; subst. exists 1%nat. cbn [firstn map length events].
      rewrite filter_app. cbn [filter isCommitFetch].
      repeat split; lia. }
    destruct parentCommit as [pc|].
    2:{ inversion H; subst. exists 1%nat. cbn [firstn map length events].
        rewrite filter_app. cbn [filter isCommitFetch].
        repeat split; lia. }
    cbv zeta in H.
    rewrite (bind_Returned _ _ (logrus_Info_run _ _)) in H.
    cbv beta iota in H.
    destruct (GetSHA (GetTree (rc_Commit pc)) =? prSHA)%string.
    + rewrite (bind_Returned _ _ (logrus_Info_run _ _)) in H.
      inversion H; subst. exists 1%nat. cbn [firstn map length events].
      rewrite !filter_app. cbn [filter isCommitFetch]. rewrite !app_nil_r.
      repeat split; lia.
    + apply IH in H. destruct H as (k & Hk & Hev & Hr).
      exists (S k). cbn [firstn map length events pull] in *.
      rewrite !filter_app in Hev. cbn [filter isCommitFetch] in Hev.
      rewrite app_nil_r, <- app_assoc in Hev.
      split; [lia|]. split; [exact Hev|].
      destruct r as [[n [e|]]|]; [lia | | lia].
      destruct Hr as [Hn Hpos]. split; lia.
Qed.

(** X12.  When [findPatchTree] returns an index with no error, the index
    is a position in the parent list of the merge commit, and the commits
    fetched by the run are the merge commit and then the parents up to
    that position, each once, in their order: nothing beyond it. *)
Theorem findPatchTree_match_in_range :
  forall (m m1 m' : Machine) (init : list Commit) (lastCommit : Commit)
         (repoCommit : GhRepositoryCommit) (w2 : World impl) (n : Z),
    GetCommits impl m = (Returned ((init ++ [lastCommit])%list, None), m1) ->
    Repositories_GetCommit impl (world m1) (RepoOwner (pull m))
      (RepoName (pull m)) (MergeCommitSHA (pull m)) ListOptions_zero =
      ((Some repoCommit, None), w2) ->
    findPatchTree impl m = (Returned (n, None), m') ->
    0 <= n < len (Parents (NewCommit impl (rc_Commit repoCommit))) /\
    filter isCommitFetch (events m') =
      (filter isCommitFetch (events m)
         ++ CallRepositoriesGetCommit (RepoOwner (pull m)) (RepoName (pull m))
              (MergeCommitSHA (pull m))
         :: map (fun p => CallRepositoriesGetCommit (RepoOwner (pull m))
                            (RepoName (pull m)) (SHA p))
              (firstn (Z.to_nat n + 1)
                 (Parents (NewCommit impl (rc_Commit repoCommit)))))%list.
Proof.
  intros m m1 m' init lastCommit repoCommit w2 n Hc Hm.
  destruct (getCommits_frame _ _ _ Hc) as (_ & Hpull1 & Hev1).
  rewrite <- Hpull1 in Hm.
  enter_findPatchTree Hc Hm.
  match goal with
  | |- context [bind (scanParents impl ?sha 0 ?ps) _ ?m2] =>
      destruct (scanParents_returns sha ps 0 m2) as (r & m3 & Hscan)
  end.
  rewrite (bind_Returned _ _ Hscan).
  destruct (scanParents_fetches _ _ _ _ _ _ Hscan) as (k & Hk & Hev & Hr).
  cbn [events pull] in Hev. rewrite filter_app in Hev.
  cbn [filter isCommitFetch] in Hev. rewrite <- app_assoc in Hev.
  cbn [app] in Hev. rewrite Hev1, Hpull1 in Hev.
  destruct r as [[n' [e'|]]|]; intros H; inversion H; subst.
  destruct Hr as [Hn Hpos]. subst n.
  replace (Z.to_nat (0 + Z.of_nat k - 1) + 1)%nat with k by lia.
  split; [unfold len; lia | exact Hev].
Qed.



(** X14.  The pull request has no repository yet and the platform gives
    it: although [getMergeMode] asks [GetRepository] twice (lines 40 and
    45), the platform is asked once; the repository is stored in the pull
    request, whose other fields stay, and the merge commit is fetched
    through it.  These two are all the calls of the run, on every
    path. *)
Theorem getMergeMode_resolves_once :
  forall (m : Machine) (commits : list Commit)
         (ghRepo : option (GhRepository impl)) (repo : Repository impl)
         (w : World impl),
    PRRepository (pull m) = None ->
    Repositories_Get impl (world m) (RepoOwner (pull m)) (RepoName (pull m)) =
      ((ghRepo, None), w) ->
    NewRepository impl ghRepo = Some repo ->
    filter isCall (events (snd (getMergeMode impl commits m))) =
      (filter isCall (events m)
         ++ [CallRepositoriesGet (RepoOwner (pull m)) (RepoName (pull m));
             CallRepositoryGetCommit (MergeCommitSHA (pull m))])%list /\
    world (snd (getMergeMode impl commits m)) =
      snd (Repository_GetCommit impl w repo (MergeCommitSHA (pull m))) /\
    pull (snd (getMergeMode impl commits m)) =
      mkPullRequest (RepoOwner (pull m)) (RepoName (pull m)) (Number (pull m))
        (MergeCommitSHA (pull m)) (Some repo).
Proof.
  intros m commits ghRepo repo w Hnone Hget Hnew.
  assert (H1 : GetRepository impl m =
               (Returned (Some repo),
                mkMachine w
                  (mkPullRequest (RepoOwner (pull m)) (RepoName (pull m))
                     (Number (pull m)) (MergeCommitSHA (pull m)) (Some repo))
                  (events m ++
                     [CallRepositoriesGet (RepoOwner (pull m))
                        (RepoName (pull m))]))).
  { unfold GetRepository, loadRepository, GitHubClient_Repositories_Get,
      setRepository, emit, bind, ret, getPR.
    rewrite Hnone, Hget. cbn [pull world events PRRepository].
    rewrite Hnew. reflexivity. }
  destruct (Repository_GetCommit impl w repo (MergeCommitSHA (pull m)))
    as [[mc err] w2] eqn:H2.
  unfold getMergeMode. step H1.
  match goal with
  | |- context [bind (GetRepository impl) _ ?m1] =>
      rewrite (bind_Returned _ _ (GetRepository_present m1 repo eq_refl))
  end.
  cbv beta iota. step_pr. cbn [pull MergeCommitSHA Number].
  match goal with
  | |- context [bind (Repository_GetCommit_call impl _ _) _ ?m1] =>
      rewrite (bind_Returned _ _
                 (Repository_GetCommit_call_run m1 repo _ _ _ H2))
  end.
  cbv beta iota. cbn [snd world pull events].
  assert (Htwo :
            filter isCall
              ((events m ++ [CallRepositoriesGet (RepoOwner (pull m))
                               (RepoName (pull m))])
                 ++ [CallRepositoryGetCommit (MergeCommitSHA (pull m))]) =
            (filter isCall (events m)
               ++ [CallRepositoriesGet (RepoOwner (pull m)) (RepoName (pull m));
                   CallRepositoryGetCommit (MergeCommitSHA (pull m))])%list).
  { rewrite !filter_app. cbn [filter isCall]. rewrite <- app_assoc.
    reflexivity. }
  assert (Hlog : forall (l : list Event) (msg : string),
             filter isCall (l ++ [Log InfoLevel msg]) = filter isCall l).
  { intros l msg. rewrite filter_app. cbn [filter isCall].
    apply app_nil_r. }
  destruct err as [e|]; [cbn [snd world pull events ret]; auto|].
  destruct mc as [mergeCommit|]; [|cbn [snd world pull events ret]; auto].
  destruct (1 <? len (Parents mergeCommit)).
  { step_log. unfold ret. cbn [snd events world pull].
    rewrite Hlog. auto. }
  destruct (len commits =? 1).
  { step_log. unfold ret. cbn [snd events world pull].
    rewrite Hlog. auto. }
  match goal with
  | |- context [bind (index commits ?i) _ ?m2] =>
      destruct (index commits i m2) as [[x|msg] mx] eqn:Hx;
      pose proof (index_machine _ _ _ _ _ Hx) as Hmx; subst mx
  end.
  - step Hx. cbv zeta. step_log.
    destruct (TreeSHA mergeCommit =? TreeSHA x)%string; step_log;
      unfold ret; cbn [snd events world pull];
      rewrite !Hlog; auto.
  - rewrite (bind_Panicked _ _ Hx). cbn [snd events world pull]. auto.
Qed.

End Properties.

(* ================================================================== *)
(** ** Concrete runs on the fake platform *)

Ltac run := vm_compute; first [reflexivity | intro; discriminate].

Lemma getMergeMode_compares_trees_witness :
  fst (getMergeMode Fixture.api [Fixture.commit1; Fixture.commit2]
         (Fixture.boot Fixture.mergedByRebase)) = Returned ("rebase", None)
  /\
  fst (getMergeMode Fixture.api [Fixture.commit1; Fixture.commit2]
         (Fixture.boot Fixture.mergedBySquash)) = Returned ("squash", None).
Proof.
  split.
  - refine (proj1 (getMergeMode_compares_trees Fixture.api
                     (Fixture.boot Fixture.mergedByRebase) _ _ _ _
                     [Fixture.commit1] Fixture.commit2 _ _ _ _) _); run.
  - refine (proj2 (getMergeMode_compares_trees Fixture.api
                     (Fixture.boot Fixture.mergedBySquash) _ _ _ _
                     [Fixture.commit1] Fixture.commit2 _ _ _ _) _); run.
Defined.

Lemma getMergeMode_merge_commit_witness :
  fst (getMergeMode Fixture.api [Fixture.commit1]
         (Fixture.boot Fixture.mergedByMergeCommit)) = Returned ("merge", None).
Proof.
  refine (getMergeMode_merge_commit Fixture.api
            (Fixture.boot Fixture.mergedByMergeCommit) _ _ _ _
            [Fixture.commit1] _ _ _); run.
Defined.

(** C3.  On an empty commit list, with the repository resolved and a
    merge commit of one parent, [getMergeMode] does not return an error:
    the index of the last commit is [-1] and the call panics. *)
Theorem getMergeMode_empty_commit_list_panics :
  fst (getMergeMode Fixture.api [] (Fixture.boot Fixture.mergedByRebase)) =
    Panicked "index out of range [-1]".
Proof. vm_compute. reflexivity. Qed.

Lemma getMergeMode_single_commit_witness :
  getMergeMode Fixture.api [Fixture.commit1]
    (Fixture.boot Fixture.singleCommit) =
  (Returned ("squash", None),
   @mkMachine Fixture.api (Fixture.spend (Fixture.spend Fixture.singleCommit))
     (@mkPullRequest Fixture.api "mattermost" "mattermod" 42 "m0"
        (Some "mattermost/mattermod"))
     [CallRepositoriesGet "mattermost" "mattermod";
      CallRepositoryGetCommit "m0";
      Log InfoLevel "Considering PR #42 as squash as it only has one commit"]).
Proof.
  refine (eq_trans
            (getMergeMode_single_commit Fixture.api
               (Fixture.boot Fixture.singleCommit) _ _ _ _
               Fixture.commit1 _ _ _) _); run.
Defined.

Lemma getMergeMode_no_repository_witness :
  getMergeMode Fixture.api [Fixture.commit1; Fixture.commit2]
    (Fixture.boot Fixture.noRepository) =
  (Returned ("", Some (errors_New
                         "unable to get merge mode, pull request has no repo")),
   @mkMachine Fixture.api (Fixture.spend Fixture.noRepository) Fixture.pr42
     [CallRepositoriesGet "mattermost" "mattermod";
      Log ErrorLevel "404 Not Found"]).
Proof.
  refine (proj1 (getMergeMode_no_repository Fixture.api
                   (Fixture.boot Fixture.noRepository) _
                   [Fixture.commit1; Fixture.commit2] _)); run.
Defined.

Lemma findPatchTree_lowest_matching_parent_witness :
  fst (findPatchTree Fixture.api (Fixture.boot Fixture.mergedByMergeCommit)) =
    Returned (1, None)
  /\
  fst (findPatchTree Fixture.api (Fixture.boot Fixture.noParentMatches)) =
    Returned
      (0, Some (errors_New
                  "unable to find patch tree of merge commit among 1 parents")).
Proof.
  split.
  - refine (proj1 (proj2 (findPatchTree_lowest_matching_parent Fixture.api
                            (Fixture.boot Fixture.mergedByMergeCommit) _
                            [Fixture.commit1] Fixture.commit2 _ _
                            ["tx"; "t1"] _ _ _)) 1%nat _ _);
      try run.
    intros [|j] Hj; [run | lia].
  - refine (eq_trans
              (proj2 (proj2 (findPatchTree_lowest_matching_parent Fixture.api
                               (Fixture.boot Fixture.noParentMatches) _
                               [Fixture.commit1] Fixture.commit2 _ _
                               ["tz"] _ _ _)) _) _);
      try run.
    intros [H|[]]. discriminate H.
Defined.

Lemma findPatchTree_empty_commit_list_witness :
  findPatchTree Fixture.api (Fixture.boot Fixture.noCommits) =
  (Returned (0, Some (errors_New
                        "unable to find patch tree, commit list is empty")),
   @mkMachine Fixture.api (Fixture.spend Fixture.noCommits) Fixture.pr42
     [CallListCommits "mattermost" "mattermod" 42 ListOptions_zero;
      Log InfoLevel "Read 0 commits from PR 42"]).
Proof.
  refine (proj1 (findPatchTree_empty_commit_list Fixture.api
                   (Fixture.boot Fixture.noCommits) _ _)); run.
Defined.

Lemma findPatchTree_parent_fetch_fails_witness :
  (exists err : error,
      findPatchTree Fixture.api (Fixture.boot Fixture.secondParentMissing) =
        (Returned (0, Some err),
         @mkMachine Fixture.api
           (Fixture.spend
              (Fixture.spend
                 (Fixture.spend (Fixture.spend Fixture.secondParentMissing))))
           Fixture.pr42
           [CallListCommits "mattermost" "mattermod" 42 ListOptions_zero;
            Log InfoLevel "Read 2 commits from PR 42";
            CallRepositoriesGetCommit "mattermost" "mattermod" "m0";
            CallRepositoriesGetCommit "mattermost" "mattermod" "A";
            Log InfoLevel "PR: t1 - Parent: tx";
            CallRepositoriesGetCommit "mattermost" "mattermod" "B"]) /\
      err = errors_Wrap Fixture.notFound "querying GitHub for parent commit B")
  /\
  (exists err : error,
      fst (findPatchTree Fixture.api
             (Fixture.boot Fixture.secondParentEmpty)) =
        Returned (0, Some err) /\
      err = errors_New "commit returned empty when querying sha B").
Proof.
  split.
  - destruct (findPatchTree_parent_fetch_fails Fixture.api
                (Fixture.boot Fixture.secondParentMissing) _ _
                [Fixture.commit1] Fixture.commit2 _ _ _
                [Fixture.parentRef "A"] [Fixture.parentRef "C"]
                (Fixture.parentRef "B") _
                eq_refl eq_refl eq_refl eq_refl eq_refl
                (or_introl (fun H => eq_ind (Some Fixture.notFound)
                                       (fun o => match o with
                                                 | Some _ => True
                                                 | None => False
                                                 end) I None H)))
      as (err & Hrun & Hwrap & _).
    exists err. split.
    + exact Hrun.
    + exact (Hwrap Fixture.notFound eq_refl).
  - destruct (findPatchTree_parent_fetch_fails Fixture.api
                (Fixture.boot Fixture.secondParentEmpty) _ _
                [Fixture.commit1] Fixture.commit2 _ _ _
                [Fixture.parentRef "A"] [Fixture.parentRef "C"]
                (Fixture.parentRef "B") _
                eq_refl eq_refl eq_refl eq_refl eq_refl
                (or_intror eq_refl))
      as (err & Hrun & _ & Hempty).
    exists err. split.
    + rewrite Hrun. reflexivity.
    + exact (Hempty eq_refl).
Defined.

(** C9.  The pull request has 31 commits and the platform serves them in
    pages of 30.  [getCommits] returns the 30 commits of the first page,
    although the answer names a second page: the last commit it returns
    is commit 30, the last commit of the pull request is commit 31. *)
Theorem getCommits_returns_first_page_only :
  length (Fixture.prCommits Fixture.manyCommits) = 31%nat /\
  snd (fst (fst (Fixture.listCommits Fixture.manyCommits
                   "mattermost" "mattermod" 42 ListOptions_zero))) =
    Some (mkResponse 2 2) /\
  fst (getCommits Fixture.api (Fixture.boot Fixture.manyCommits)) =
    Returned
      (map (fun c => Fixture.newCommit (rc_Commit c))
         (firstn 30 (Fixture.prCommits Fixture.manyCommits)), None) /\
  SHA (last (map (fun c => Fixture.newCommit (rc_Commit c))
               (firstn 30 (Fixture.prCommits Fixture.manyCommits)))
         (Fixture.parentRef "")) = "c30" /\
  SHA (last (map (fun c => Fixture.newCommit (rc_Commit c))
               (Fixture.prCommits Fixture.manyCommits))
         (Fixture.parentRef "")) = "c31".
Proof. repeat split; vm_compute; reflexivity. Qed.

(** C10.  Whenever [findPatchTree] returns an error, the index it
    returns with it is 0; and 0 is also what it returns, with no error,
    when the first parent of the merge commit matches. *)
Theorem findPatchTree_failure_index_is_zero :
  (forall (impl : githubAPIUser) (m m' : Machine impl) (n : Z) (e : error),
      findPatchTree impl m = (Returned (n, Some e), m') -> n = 0) /\
  fst (findPatchTree Fixture.api (Fixture.boot Fixture.firstParentMatches)) =
    Returned (0, None).
Proof.
  split.
  - intros impl m m' n e H. eapply findPatchTree_error_index. exact H.
  - vm_compute. reflexivity.
Qed.

Lemma findPatchTree_failure_index_is_zero_witness :
  match fst (findPatchTree Fixture.api (Fixture.boot Fixture.budgetRunsOut)) with
  | Returned (n, Some _) => n = 0
  | _ => False
  end.
Proof.
  refine (proj1 findPatchTree_failure_index_is_zero Fixture.api
            (Fixture.boot Fixture.budgetRunsOut) _ 0 _ _).
  vm_compute. reflexivity.
Defined.

(* ================================================================== *)
(** ** Further concrete runs *)


Lemma getMergeMode_result_shape_witness :
  ("squash" = MERGE Fixture.api \/
   "squash" = SQUASH Fixture.api \/
   "squash" = REBASE Fixture.api) /\
  "" = "".
Proof.
  split.
  - refine (getMergeMode_result_shape Fixture.api
              (Fixture.boot Fixture.mergedBySquash) _
              [Fixture.commit1; Fixture.commit2] "squash" None _).
    vm_compute. reflexivity.
  - refine (getMergeMode_result_shape Fixture.api
              (Fixture.boot Fixture.noRepository) _
              [Fixture.commit1; Fixture.commit2] ""
              (Some (errors_New
                       "unable to get merge mode, pull request has no repo"))
              _).
    vm_compute. reflexivity.
Defined.

Lemma getMergeMode_merge_fetch_fails_witness :
  exists err : error,
    fst (getMergeMode Fixture.api []
           (Fixture.boot Fixture.mergeCommitMissing)) =
      Returned ("", Some err) /\
    err = errors_Wrap Fixture.notFound "querying GitHub for merge commit m0".
Proof.
  destruct (getMergeMode_merge_fetch_fails Fixture.api
              (Fixture.boot Fixture.mergeCommitMissing) _
              "mattermost/mattermod" _ _ []
              eq_refl eq_refl
              (or_introl (fun H => eq_ind (Some Fixture.notFound)
                                     (fun o => match o with
                                               | Some _ => True
                                               | None => False
                                               end) I None H)))
    as (err & Hrun & Hwrap & _).
  exists err. split.
  - rewrite Hrun. reflexivity.
  - exact (Hwrap Fixture.notFound eq_refl).
Defined.

Lemma getMergeMode_reads_last_tree_only_witness :
  getMergeMode Fixture.api [Fixture.commit1; Fixture.commit2]
    (Fixture.boot Fixture.mergedByRebase) =
  getMergeMode Fixture.api [Fixture.commit2; Fixture.commit1; Fixture.commit2]
    (Fixture.boot Fixture.mergedByRebase).
Proof.
  refine (getMergeMode_reads_last_tree_only Fixture.api
            (Fixture.boot Fixture.mergedByRebase)
            [Fixture.commit1] [Fixture.commit2; Fixture.commit1]
            Fixture.commit2 Fixture.commit2 _ _ eq_refl);
    intro H; discriminate H.
Defined.

Lemma getMergeMode_one_call_when_resolved_witness :
  filter isCall
    (events (snd (getMergeMode Fixture.api []
                    (Fixture.resolved Fixture.mergedByRebase)))) =
    [CallRepositoryGetCommit "m0"] /\
  world (snd (getMergeMode Fixture.api []
                (Fixture.resolved Fixture.mergedByRebase))) =
    Fixture.spend Fixture.mergedByRebase /\
  pull (snd (getMergeMode Fixture.api []
               (Fixture.resolved Fixture.mergedByRebase))) =
    pull (Fixture.resolved Fixture.mergedByRebase).
Proof.
  exact (getMergeMode_one_call_when_resolved Fixture.api
           (Fixture.resolved Fixture.mergedByRebase)
           "mattermost/mattermod" [] eq_refl).
Defined.

Lemma getMergeMode_resolution_error_is_logged_witness :
  getMergeMode Fixture.api [Fixture.commit1; Fixture.commit2]
    (Fixture.boot Fixture.noRepository) =
  (Returned ("", Some (errors_New
                         "unable to get merge mode, pull request has no repo")),
   @mkMachine Fixture.api (Fixture.spend Fixture.noRepository) Fixture.pr42
     [CallRepositoriesGet "mattermost" "mattermod";
      Log ErrorLevel "404 Not Found"]).
Proof.
  exact (getMergeMode_resolution_error_is_logged Fixture.api
           (Fixture.boot Fixture.noRepository)
           [Fixture.commit1; Fixture.commit2] None Fixture.notFound
           (Fixture.spend Fixture.noRepository) eq_refl eq_refl).
Defined.

Lemma getMergeMode_resolves_once_witness :
  filter isCall
    (events (snd (getMergeMode Fixture.api [Fixture.commit1; Fixture.commit2]
                    (Fixture.boot Fixture.mergedByRebase)))) =
    [CallRepositoriesGet "mattermost" "mattermod";
     CallRepositoryGetCommit "m0"] /\
  world (snd (getMergeMode Fixture.api [Fixture.commit1; Fixture.commit2]
                (Fixture.boot Fixture.mergedByRebase))) =
    Fixture.spend (Fixture.spend Fixture.mergedByRebase) /\
  pull (snd (getMergeMode Fixture.api [Fixture.commit1; Fixture.commit2]
               (Fixture.boot Fixture.mergedByRebase))) =
    pull (Fixture.resolved Fixture.mergedByRebase).
Proof.
  exact (getMergeMode_resolves_once Fixture.api
           (Fixture.boot Fixture.mergedByRebase)
           [Fixture.commit1; Fixture.commit2]
           (Some "mattermost/mattermod") "mattermost/mattermod"
           (Fixture.spend Fixture.mergedByRebase) eq_refl eq_refl eq_refl).
Defined.

Lemma findPatchTree_listing_error_witness :
  exists err : error,
    fst (findPatchTree Fixture.api (Fixture.boot Fixture.budgetEmpty)) =
      Returned (0, Some err) /\
    Error err =
      "getting pr commits: querying GitHub for commits in PR 42: 403 API rate limit exceeded"
    /\
    errors_Cause err = Fixture.rateLimited.
Proof.
  destruct (findPatchTree_listing_error Fixture.api
              (Fixture.boot Fixture.budgetEmpty) [] None Fixture.rateLimited
              Fixture.budgetEmpty eq_refl)
    as (err & Hrun & Hmsg & Hcause).
  exists err. split; [rewrite Hrun; reflexivity|].
  split; [exact Hmsg | exact Hcause].
Defined.

Lemma findPatchTree_merge_fetch_fails_witness :
  exists err : error,
    fst (findPatchTree Fixture.api
           (Fixture.boot Fixture.mergeCommitMissing)) =
      Returned (0, Some err) /\
    err = errors_Wrap Fixture.notFound "querying GitHub for merge commit m0".
Proof.
  destruct (findPatchTree_merge_fetch_fails Fixture.api
              (Fixture.boot Fixture.mergeCommitMissing) _
              [Fixture.commit1] Fixture.commit2 _ _
              eq_refl eq_refl
              (or_introl (fun H => eq_ind (Some Fixture.notFound)
                                     (fun o => match o with
                                               | Some _ => True
                                               | None => False
                                               end) I None H)))
    as (err & Hrun & Hwrap & _).
  exists err. split.
  - rewrite Hrun. reflexivity.
  - exact (Hwrap Fixture.notFound eq_refl).
Defined.

Lemma findPatchTree_stops_at_first_match_witness :
  fst (findPatchTree Fixture.api (Fixture.boot Fixture.matchBeforeMissing)) =
    Returned (1, None) /\
  filter isCommitFetch
    (events (snd (findPatchTree Fixture.api
                    (Fixture.boot Fixture.matchBeforeMissing)))) =
    [CallRepositoriesGetCommit "mattermost" "mattermod" "m0";
     CallRepositoriesGetCommit "mattermost" "mattermod" "A";
     CallRepositoriesGetCommit "mattermost" "mattermod" "B"].
Proof.
  rewrite (findPatchTree_stops_at_first_match Fixture.api
             (Fixture.boot Fixture.matchBeforeMissing) _ _
             [Fixture.commit1] Fixture.commit2 _ _ _ _
             [Fixture.parentRef "A"] [Fixture.parentRef "C"]
             (Fixture.parentRef "B")
             eq_refl eq_refl eq_refl eq_refl eq_refl eq_refl).
  split; reflexivity.
Defined.

Lemma findPatchTree_match_in_range_witness :
  0 <= 1 < 2 /\
  filter isCommitFetch
    (events (snd (findPatchTree Fixture.api
                    (Fixture.boot Fixture.mergedByMergeCommit)))) =
    [CallRepositoriesGetCommit "mattermost" "mattermod" "m0";
     CallRepositoriesGetCommit "mattermost" "mattermod" "A";
     CallRepositoriesGetCommit "mattermost" "mattermod" "B"].
Proof.
  pose proof (findPatchTree_match_in_range Fixture.api
                (Fixture.boot Fixture.mergedByMergeCommit) _
                (snd (findPatchTree Fixture.api
                        (Fixture.boot Fixture.mergedByMergeCommit)))
                [Fixture.commit1] Fixture.commit2 _ _ 1
                eq_refl eq_refl eq_refl) as H.
  exact H.
Defined.
